(** * wraith: the [scanGithubEnterprise] command

    A shallow embedding of [cmd/scanGithubEnterprise.go]: the flag set and
    the viper bindings built by [init], and the body of
    [scanGithubEnterpriseCmd.Run], which creates a session, resolves the
    scan targets through the gatherers of package [core], analyses the
    gathered repositories and reports.

    Package [core] (the session, the logger, the gatherers, the analysis
    engine) and the viper/cobra libraries are not part of that file.  The functions of [core] that [Run] calls are parameters of the
    development (record [Core]); the session type, [Session.Finish] and
    [CheckGithubAPIToken] are modelled from the specification, and say so. *)

From stdpp Require Import gmap strings list.
From Stdlib Require Import ZArith.

Open Scope string_scope.
Open Scope Z_scope.
Open Scope list_scope.

(** ** Go slices of strings

    [sess.UserLogins], [sess.UserOrgs] and [sess.UserRepos] are [[]string];
    [Run] tests them against [nil].  A slice is [nil] or holds a backing
    list (which may have length 0: [nil] and an empty non-nil slice are
    different values in Go, and [!= nil] tells them apart). *)

Definition slice : Type := option (list string).

Definition len (s : slice) : nat :=
  match s with None => 0%nat | Some l => length l end.

(** [s == nil] and [s != nil]. *)
Definition is_nil (s : slice) : bool :=
  match s with None => true | Some _ => false end.

Definition not_nil (s : slice) : bool := negb (is_nil s).

(** The vocabulary of the specification: a target set is empty when it has
    no element, non-empty otherwise. *)
Definition empty (s : slice) : Prop := len s = 0%nat.
Definition nonempty (s : slice) : Prop := (0 < len s)%nat.

(** A target list that was not given stays [nil]: the session never holds a
    non-nil slice of length 0. *)
Definition normalised (s : slice) : Prop := s <> Some [].

(** ** The session *)

Record RepositoryRef : Type := {
  repo_owner : string;
  repo_name : string;
  repo_private : bool;
  repo_fork : bool
}.

Record Stats : Type := {
  StartedAt : Z;
  FinishedAt : option Z
}.

(** Modelled from the spec: the struct [core.Session] is declared outside
    the command's file.  The fields are the ones [Run] reads or writes
    ([GithubAccessToken], [UserLogins], [UserOrgs], [UserRepos], [Silent],
    [BindAddress], [BindPort], [Stats.StartedAt]) and, from §3 of the
    specification, the resolved repositories and [finishedAt], which is
    unset until [finish]. *)
Record Session : Type := {
  ScanType : string;
  GithubAccessToken : string;
  UserLogins : slice;
  UserOrgs : slice;
  UserRepos : slice;
  Silent : bool;
  BindAddress : string;
  BindPort : Z;
  SessionStats : Stats;
  Repositories : list RepositoryRef
}.

Definition set_GithubAccessToken (t : string) (s : Session) : Session :=
  {| ScanType := ScanType s; GithubAccessToken := t;
     UserLogins := UserLogins s; UserOrgs := UserOrgs s;
     UserRepos := UserRepos s; Silent := Silent s;
     BindAddress := BindAddress s; BindPort := BindPort s;
     SessionStats := SessionStats s; Repositories := Repositories s |}.

Definition set_FinishedAt (t : Z) (s : Session) : Session :=
  {| ScanType := ScanType s; GithubAccessToken := GithubAccessToken s;
     UserLogins := UserLogins s; UserOrgs := UserOrgs s;
     UserRepos := UserRepos s; Silent := Silent s;
     BindAddress := BindAddress s; BindPort := BindPort s;
     SessionStats := {| StartedAt := StartedAt (SessionStats s);
                        FinishedAt := Some t |};
     Repositories := Repositories s |}.

(** The target sets of a session are normalised. *)
Definition targets_normalised (s : Session) : Prop :=
  normalised (UserLogins s) /\ normalised (UserOrgs s) /\
  normalised (UserRepos s).

(** The part of the session that is configuration: the specification has it
    read-only once the session is validated. *)
Definition config_of (s : Session) : slice * slice * slice * bool * string :=
  (UserLogins s, UserOrgs s, UserRepos s, Silent s, GithubAccessToken s).

(** ** Flags and viper bindings ([init], lines 86-139) *)

(** A pflag: its default, and the value given on the command line if the
    flag was given (pflag's [Changed]). *)
Record Flag : Type := {
  flag_default : string;
  flag_given : option string
}.

(** A viper instance: the settings [core.SetConfig] loaded (configuration
    file, environment) and the flags bound to keys by [BindPFlag]. *)
Record Viper : Type := {
  settings : gmap string string;
  pflags : gmap string Flag
}.

(** [v.GetString(key)]: a bound flag that was given on the command line
    wins; then the loaded settings; then the default of a bound flag; then
    the empty string. *)
Definition GetString (v : Viper) (key : string) : string :=
  match pflags v !! key with
  | Some f =>
      match flag_given f with
      | Some x => x
      | None =>
          match settings v !! key with
          | Some x => x
          | None => flag_default f
          end
      end
  | None => default "" (settings v !! key)
  end.

(** The flags declared on [scanGithubEnterpriseCmd] (lines 91-113), name
    and default, the defaults printed as strings. *)
Definition enterprise_flag_defaults : list (string * string) :=
  [ ("expand-orgs", "false");
    ("bind-address", "127.0.0.1");
    ("bind-port", "9393");
    ("debug", "false");
    ("hide-secrets", "false");
    ("json", "false");
    ("load-triage", "false");
    ("scan-forks", "true");
    ("scan-tests", "false");
    ("silent", "false");
    ("max-file-size", "50");
    ("commit-depth", "0");
    ("match-level", "3");
    ("github-enterprise-api-token", "");
    ("signature-file", "$HOME/.wraith/signatures/default.yml");
    ("num-threads", "0");
    ("in-mem-clone", "false");
    ("github-enterprise-url", "");
    ("ignore-extension", "");
    ("ignore-path", "");
    ("github-enterprise-orgs", "");
    ("github-enterprise-repos", "") ].

(** [scanGithubEnterpriseCmd.Flags()] after the command line was parsed:
    [cmdline] maps the flags that were given to their values. *)
Definition enterprise_flags (cmdline : gmap string string) : gmap string Flag :=
  list_to_map
    (map (fun nd : string * string =>
            (nd.1, {| flag_default := nd.2; flag_given := cmdline !! nd.1 |}))
         enterprise_flag_defaults).

(** The two flag sets [init] looks flags up in. *)
Inductive command : Type := scanGithubEnterpriseCmd | scanGithubCmd.

(** The [BindPFlag] calls of lines 115-134, in order: the viper key, and
    the command whose flag of the same name is bound to it. *)
Definition bindings : list (string * command) :=
  [ ("debug", scanGithubEnterpriseCmd);
    ("hide-secrets", scanGithubEnterpriseCmd);
    ("scan-tests", scanGithubEnterpriseCmd);
    ("silent", scanGithubEnterpriseCmd);
    ("max-file-size", scanGithubEnterpriseCmd);
    ("commit-depth", scanGithubEnterpriseCmd);
    ("match-level", scanGithubEnterpriseCmd);
    ("github-enterprise-api-token", scanGithubEnterpriseCmd);
    ("github-enterprise-orgs", scanGithubEnterpriseCmd);
    ("github-enterprise-repos", scanGithubEnterpriseCmd);
    ("github-enterprise-url", scanGithubEnterpriseCmd);
    ("ignore-extension", scanGithubEnterpriseCmd);
    ("ignore-path", scanGithubEnterpriseCmd);
    ("signature-file", scanGithubEnterpriseCmd);
    ("bind-address", scanGithubCmd);
    ("bind-port", scanGithubCmd);
    ("in-mem-clone", scanGithubCmd);
    ("expand-orgs", scanGithubCmd);
    ("num-threads", scanGithubCmd) ].

(** [BindPFlag key flag] binds nothing (and returns an error) when the
    looked-up flag is nil. *)
Definition BindPFlag (flags : gmap string Flag) (key : string)
    (bound : gmap string Flag) : gmap string Flag :=
  match flags !! key with
  | Some f => <[key := f]> bound
  | None => bound
  end.

(** [init]: the viper instance of the command.  [loaded] is what
    [core.SetConfig] read, [github_flags] the flag set of the sibling
    command [scanGithubCmd] (never parsed when this command runs), and
    [cmdline] the flags given to [scanGithubEnterprise]. *)
Definition init (loaded : gmap string string) (github_flags : gmap string Flag)
    (cmdline : gmap string string) : Viper :=
  {| settings := loaded;
     pflags :=
       fold_left
         (fun bound kc =>
            match kc.2 with
            | scanGithubEnterpriseCmd =>
                BindPFlag (enterprise_flags cmdline) kc.1 bound
            | scanGithubCmd => BindPFlag github_flags kc.1 bound
            end)
         bindings ∅ |}.

(** ** Effects: the calls [Run] makes, and the process around them *)

(** The functions and methods of package [core] that [Run] calls. *)
Module fn.
Inductive t : Type :=
| NewSession
| ValidateUserInput
| CheckGithubAPIToken
| InitGitClient
| GatherUsers
| GatherOrgs
| GatherGithubOrgRepositories
| GetGithubRepositoriesFromOwner
| AnalyzeRepositories
| Finish
| PrintSessionStats.

#[global] Instance eq_dec : EqDecision t.
Proof. solve_decision. Defined.

(** The four entity gatherers. *)
Definition is_gatherer (f : t) : bool :=
  match f with
  | GatherUsers | GatherOrgs | GatherGithubOrgRepositories
  | GetGithubRepositoriesFromOwner => true
  | _ => false
  end.
End fn.

(** The levels of the logger [sess.Out]. *)
Inductive level : Type := Important | Error | Info.

#[global] Instance level_eq_dec : EqDecision level.
Proof. solve_decision. Defined.

(** What an observer of the process sees, in order: a call entering a
    function of [core] with the session as it is then, the call returning
    with the session as the callee left it, and a line handed to the logger
    (the format string; the arguments are not recorded). *)
Inductive event : Type :=
| Call (f : fn.t) (s : Session)
| Return (f : fn.t) (s : Session)
| Out (l : level) (format : string).

(** The process: the session [sess] points to, the clock, and the events so
    far, oldest first. *)
Record World : Type := {
  sess : Session;
  clock : Z;
  trace : list event
}.

(** How a computation ends: it completes, or the process stops there,
    either by exiting or by blocking for ever ([select {}]). *)
Inductive halt : Type := Exited | Blocked.

Inductive result (A : Type) : Type :=
| Done (a : A) (w : World)
| Halted (h : halt) (w : World).
Arguments Done {A} a w.
Arguments Halted {A} h w.

Definition M (A : Type) : Type := World -> result A.

Definition ret {A : Type} (a : A) : M A := fun w => Done a w.

Definition bind {A B : Type} (m : M A) (k : A -> M B) : M B :=
  fun w =>
    match m w with
    | Done a w' => k a w'
    | Halted h w' => Halted h w'
    end.

Declare Scope go_scope.
Delimit Scope go_scope with go.
Notation "'do' x <~ m 'in' k" := (bind m (fun x => k))
  (at level 10, x name, m at level 100, k at level 200,
   only parsing) : go_scope.
Notation "m >> k" := (bind m (fun _ => k))
  (at level 71, right associativity) : go_scope.
Open Scope go_scope.

(** The world a computation leaves, whichever way it ends. *)
Definition final {A : Type} (r : result A) : World :=
  match r with Done _ w => w | Halted _ w => w end.

(** Read the session. *)
Definition reads {A : Type} (f : Session -> A) : M A :=
  fun w => Done (f (sess w)) w.

(** Write the session. *)
Definition modify (f : Session -> Session) : M unit :=
  fun w => Done tt {| sess := f (sess w); clock := clock w; trace := trace w |}.

Definition emit (e : event) : M unit :=
  fun w => Done tt {| sess := sess w; clock := clock w; trace := trace w ++ [e] |}.

(** Time passes: the clock never runs backwards. *)
Definition tick (n : nat) : M unit :=
  fun w => Done tt {| sess := sess w; clock := clock w + Z.of_nat n;
                      trace := trace w |}.

(** [sess.Out.<Level>(format, ...)]: the logger takes the line and returns. *)
Definition out (l : level) (format : string) : M unit := emit (Out l format).

(** [select {}] *)
Definition select_forever : M unit := fun w => Halted Blocked w.

(** [os.Exit] *)
Definition exit {A : Type} : M A := fun w => Halted Exited w.

(** An [if] without [else]. *)
Definition when (b : bool) (m : M unit) : M unit := if b then m else ret tt.

(** ** Package [core], as far as [Run] depends on it *)

(** The functions [Run] calls and the command's file does not contain.
    [NewSession v scanType now] builds the session; [ValidateUserInput]
    either lets the session through or stops the process; [exec f] is what
    the call [core.f(sess)] does to the session, for the remaining
    functions; [cost f s] is the time the call takes. *)
Record Core : Type := {
  NewSession : Viper -> string -> Z -> Session;
  ValidateUserInput : Viper -> Session -> option Session;
  exec : fn.t -> Session -> Session;
  cost : fn.t -> Session -> nat
}.

(** Modelled from the spec: what §3, §4.3 and §5 say of the functions of
    [core], which are not in the command's file.  A new session has its
    start time and no finish time, and nothing resolved; validation does
    not touch the timing nor the resolved repositories; after validation no
    call writes the configuration of the session (target sets, silent
    flag, token) or its timing; and repositories are produced by the
    gatherers only. *)
Record CoreLaws (c : Core) : Prop := {
  NewSession_stats : forall v ty now,
    SessionStats (NewSession c v ty now) =
    {| StartedAt := now; FinishedAt := None |};
  NewSession_unresolved : forall v ty now,
    Repositories (NewSession c v ty now) = [];
  ValidateUserInput_stats : forall v s s',
    ValidateUserInput c v s = Some s' -> SessionStats s' = SessionStats s;
  ValidateUserInput_unresolved : forall v s s',
    ValidateUserInput c v s = Some s' -> Repositories s' = Repositories s;
  exec_config : forall f s, config_of (exec c f s) = config_of s;
  exec_stats : forall f s, SessionStats (exec c f s) = SessionStats s;
  exec_resolved : forall f s,
    fn.is_gatherer f = false -> Repositories (exec c f s) = Repositories s
}.

(** [core.f(sess)]: the call is entered, runs to completion on the session,
    takes its time, and returns. *)
Definition call (c : Core) (f : fn.t) : M unit :=
  do s <~ reads id in
  emit (Call f s) >>
  modify (exec c f) >>
  tick (cost c f s) >>
  do s' <~ reads id in
  emit (Return f s').

(** Modelled from the spec: [Session.Finish] is not in the command's
    file; §4.3 has it stop the timer, so it stamps [finishedAt] with the
    current time. *)
Definition Finish (now : Z) (s : Session) : Session := set_FinishedAt now s.

(** [sess.Finish()] *)
Definition finish : M unit :=
  do s <~ reads id in
  emit (Call fn.Finish s) >>
  (fun w => modify (Finish (clock w)) w) >>
  do s' <~ reads id in
  emit (Return fn.Finish s').

(** The notice given when no token is configured. *)
Definition no_token_notice : string :=
  "No token is available, only public repositories will be scanned.".

(** Modelled from the spec: [core.CheckGithubAPIToken] is not in the
    command's file.  §4.1: a non-empty token is accepted as it is, without any
    validation; an empty one is not a failure, an informational notice is
    given and the scan is public-only.  It returns the token, which [Run]
    stores in the session: the one field written. *)
Definition CheckGithubAPIToken (t : string) : M string :=
  do s <~ reads id in
  emit (Call fn.CheckGithubAPIToken s) >>
  when (bool_decide (t = "")) (out Info no_token_notice) >>
  do s' <~ reads id in
  emit (Return fn.CheckGithubAPIToken s') >>
  ret t.

(** The session scans in degraded, public-only mode: it holds no token. *)
Definition degraded (s : Session) : Prop := GithubAccessToken s = "".

(** ** [scanGithubEnterpriseCmd.Run] (lines 24-83) *)

Definition scanType : string := "github-enterprise".

(** Lines 26-43: the session is created and validated, the token checked
    and stored, the banner printed, the git client created.  The process
    starts at time [now] with nothing observed yet. *)
Definition Run_setup (c : Core) (v : Viper) (now : Z) : result unit :=
  let s0 := NewSession c v scanType now in
  (emit (Return fn.NewSession s0) >>
   (* sess.ValidateUserInput(viperScanGithubEnterprise) *)
   emit (Call fn.ValidateUserInput s0) >>
   match ValidateUserInput c v s0 with
   | None => exit
   | Some s1 =>
       modify (fun _ => s1) >>
       emit (Return fn.ValidateUserInput s1) >>
       (* sess.GithubAccessToken = core.CheckGithubAPIToken(
            viperScanGithubEnterprise.GetString("github-api-token"), sess) *)
       do t <~ CheckGithubAPIToken (GetString v "github-api-token") in
       modify (set_GithubAccessToken t) >>
       out Important "%s v%s started at %s\n" >>
       out Important "Loaded %d signatures.\n" >>
       out Important "Web interface available at http://%s:%d\n" >>
       call c fn.InitGitClient
   end)
  {| sess := s0; clock := now; trace := [] |}.

Definition no_owner_message : string :=
  "You need to specify an org or user that contains the repo(s).\n".

(** Lines 45-72: the three [if] blocks that choose the gatherers.  Every
    condition reads the session as it is when the condition is reached. *)
Definition Run_gather (c : Core) : M unit :=
  (* if sess.UserLogins != nil { if sess.UserOrgs == nil && sess.UserRepos == nil *)
  (do logins <~ reads (fun s => not_nil (UserLogins s)) in
   when logins
     (do alone <~ reads (fun s => is_nil (UserOrgs s) && is_nil (UserRepos s)) in
      when alone (call c fn.GatherUsers))) >>
  (* if sess.UserOrgs != nil { if sess.UserLogins == nil && sess.UserRepos == nil *)
  (do orgs <~ reads (fun s => not_nil (UserOrgs s)) in
   when orgs
     (do alone <~ reads (fun s => is_nil (UserLogins s) && is_nil (UserRepos s)) in
      when alone (call c fn.GatherOrgs))) >>
  (* if sess.UserRepos != nil { if .. else if .. else *)
  (do repos <~ reads (fun s => not_nil (UserRepos s)) in
   when repos
     (do orgs <~ reads (fun s => not_nil (UserOrgs s)) in
      if orgs then
        call c fn.GatherOrgs >>
        call c fn.GatherGithubOrgRepositories
      else
        do logins <~ reads (fun s => not_nil (UserLogins s)) in
        if logins then
          call c fn.GatherUsers >>
          call c fn.GetGithubRepositoriesFromOwner
        else
          out Error no_owner_message)).

Definition ctrl_c_notice : string :=
  "Press Ctrl+C to stop web server and exit.\n".

(** Lines 74-82: analysis, end of the session, report, and the wait for
    Ctrl+C unless the session is silent. *)
Definition Run_report (c : Core) : M unit :=
  call c fn.AnalyzeRepositories >>
  finish >>
  call c fn.PrintSessionStats >>
  do silent <~ reads Silent in
  when (negb silent)
    (out Important ctrl_c_notice >>
     select_forever).

(** The whole of [Run], from a process started at time [now]. *)
Definition Run (c : Core) (v : Viper) (now : Z) : result unit :=
  match Run_setup c v now with
  | Done _ w => (Run_gather c >> Run_report c) w
  | Halted h w => Halted h w
  end.

(** ** Reading a trace *)

(** The functions called, in call order. *)
Definition calls (tr : list event) : list fn.t :=
  omap (fun e => match e with Call f _ => Some f | _ => None end) tr.

(** The gatherers called, in call order. *)
Definition gathers (tr : list event) : list fn.t :=
  filter (fun f => fn.is_gatherer f = true) (calls tr).

(** The lines logged at a level, in order. *)
Definition logged (l : level) (tr : list event) : list string :=
  omap (fun e => match e with
                 | Out l' m => if decide (l' = l) then Some m else None
                 | _ => None
                 end) tr.

(** The session an event shows. *)
Definition snapshot (e : event) : option Session :=
  match e with Call _ s | Return _ s => Some s | Out _ _ => None end.

(** How the process stands when [Run] is over: it returned (and the
    process exits normally), it exited on the spot, or it is blocked. *)
Inductive ending : Type := Returns | Exits | Blocks.

Definition ending_of {A : Type} (r : result A) : ending :=
  match r with
  | Done _ _ => Returns
  | Halted Exited _ => Exits
  | Halted Blocked _ => Blocks
  end.

(** ** A test double for package [core] *)

Definition add_repositories (rs : list RepositoryRef) (s : Session) : Session :=
  {| ScanType := ScanType s; GithubAccessToken := GithubAccessToken s;
     UserLogins := UserLogins s; UserOrgs := UserOrgs s;
     UserRepos := UserRepos s; Silent := Silent s;
     BindAddress := BindAddress s; BindPort := BindPort s;
     SessionStats := SessionStats s;
     Repositories := Repositories s ++ rs |}.

Definition public_repo (owner name : string) : RepositoryRef :=
  {| repo_owner := owner; repo_name := name;
     repo_private := false; repo_fork := false |}.

(** One repository per owner and name. *)
Definition named_repos (owners names : slice) : list RepositoryRef :=
  o ← default [] owners; n ← default [] names; [public_repo o n].

(** A setting that was not given is the empty string and leaves the slice
    nil; one that was given names a single target. *)
Definition stub_targets (x : string) : slice :=
  if decide (x = "") then None else Some [x].

Definition stub_core : Core :=
  {| NewSession := fun v ty now =>
       {| ScanType := ty; GithubAccessToken := "";
          UserLogins := stub_targets (GetString v "github-enterprise-users");
          UserOrgs := stub_targets (GetString v "github-enterprise-orgs");
          UserRepos := stub_targets (GetString v "github-enterprise-repos");
          Silent := bool_decide (GetString v "silent" = "true");
          BindAddress := GetString v "bind-address";
          BindPort := 9393;
          SessionStats := {| StartedAt := now; FinishedAt := None |};
          Repositories := [] |};
     ValidateUserInput := fun _ s => Some s;
     exec := fun f s =>
       match f with
       | fn.GatherUsers =>
           add_repositories (named_repos (UserLogins s) (Some ["home"])) s
       | fn.GatherGithubOrgRepositories =>
           add_repositories (named_repos (UserOrgs s) (UserRepos s)) s
       | fn.GetGithubRepositoriesFromOwner =>
           add_repositories (named_repos (UserLogins s) (UserRepos s)) s
       | _ => s
       end;
     cost := fun f _ => if fn.is_gatherer f then 3%nat else 1%nat |}.

(** The flag set of the sibling command, as far as [init] looks into it. *)
Definition github_flags : gmap string Flag :=
  list_to_map
    (map (fun nd : string * string =>
            (nd.1, {| flag_default := nd.2; flag_given := None |}))
         [ ("bind-address", "127.0.0.1"); ("bind-port", "9393");
           ("in-mem-clone", "false"); ("expand-orgs", "false");
           ("num-threads", "0") ]).

(** A process of the command: what the configuration file holds and what
    the command line gives. *)
Definition process (loaded cmdline : list (string * string)) : Viper :=
  init (list_to_map loaded) github_flags (list_to_map cmdline).

(** A world holding a session, nothing observed yet. *)
Definition fresh (s : Session) : World := {| sess := s; clock := 0; trace := [] |}.

(** ** The worlds and events the pieces of [Run] produce *)

(** The world a completed call leaves. *)
Definition after_call (c : Core) (f : fn.t) (w : World) : World :=
  {| sess := exec c f (sess w);
     clock := clock w + Z.of_nat (cost c f (sess w));
     trace := trace w ++ [Call f (sess w); Return f (exec c f (sess w))] |}.

(** The world [sess.Finish()] leaves. *)
Definition after_finish (w : World) : World :=
  {| sess := Finish (clock w) (sess w);
     clock := clock w;
     trace := trace w ++ [Call fn.Finish (sess w);
                          Return fn.Finish (Finish (clock w) (sess w))] |}.

(** The world once the report is printed. *)
Definition after_report (c : Core) (w : World) : World :=
  after_call c fn.PrintSessionStats
    (after_finish (after_call c fn.AnalyzeRepositories w)).

Definition say (l : level) (m : string) (w : World) : World :=
  {| sess := sess w; clock := clock w; trace := trace w ++ [Out l m] |}.

(** The events of the token check, for a session [s]. *)
Definition token_events (t : string) (s : Session) : list event :=
  Call fn.CheckGithubAPIToken s ::
  (if bool_decide (t = "") then [Out Info no_token_notice] else []) ++
  [Return fn.CheckGithubAPIToken s].

(** The world once the git client is created, for a session [s1] that
    passed validation. *)
Definition setup_world (c : Core) (v : Viper) (now : Z) (s1 : Session) : World :=
  let s0 := NewSession c v scanType now in
  let t := GetString v "github-api-token" in
  after_call c fn.InitGitClient
    {| sess := set_GithubAccessToken t s1;
       clock := now;
       trace :=
         [Return fn.NewSession s0; Call fn.ValidateUserInput s0;
          Return fn.ValidateUserInput s1] ++
         token_events t s1 ++
         [Out Important "%s v%s started at %s\n";
          Out Important "Loaded %d signatures.\n";
          Out Important "Web interface available at http://%s:%d\n"] |}.

(** The events of lines 74-77, from the world [w] the gathering left. *)
Definition report_events (c : Core) (w : World) : list event :=
  let w1 := after_call c fn.AnalyzeRepositories w in
  let w2 := after_finish w1 in
  let w3 := after_call c fn.PrintSessionStats w2 in
  [Call fn.AnalyzeRepositories (sess w); Return fn.AnalyzeRepositories (sess w1);
   Call fn.Finish (sess w1); Return fn.Finish (sess w2);
   Call fn.PrintSessionStats (sess w2); Return fn.PrintSessionStats (sess w3)].

(** The last events of [Run]: the notice, unless the session is silent. *)
Definition closing_events (silent : bool) : list event :=
  if silent then [] else [Out Important ctrl_c_notice].

(** ** Processes used as examples *)

(** Only [--github-enterprise-repos widget]. *)
Definition widget_only : Viper :=
  process [] [("github-enterprise-repos", "widget")].

(** ** What the calls of [Run] leave alone *)

(** Every session shown by the events carries the timing [st]. *)
Definition shows_stats (st : Stats) (tr : list event) : Prop :=
  Forall (fun e => forall s, snapshot e = Some s -> SessionStats s = st) tr.

(** From [w] to [w'] the configuration and the timing of the session are
    kept, the clock did not run backwards, the trace grew, every session
    shown on the way has the timing of [w], only gatherers were called and
    nothing was logged for information. *)
Definition frame (w w' : World) : Prop :=
  config_of (sess w') = config_of (sess w) /\
  SessionStats (sess w') = SessionStats (sess w) /\
  clock w <= clock w' /\
  exists tr,
    trace w' = trace w ++ tr /\
    shows_stats (SessionStats (sess w)) tr /\
    Forall (fun f => fn.is_gatherer f = true) (calls tr) /\
    logged Info tr = [].

(** A login from the configuration file, and [--silent]. *)
Definition silent_scan : Viper :=
  process [("github-enterprise-users", "alice")] [("silent", "true")].

(** The same without [--silent]. *)
Definition loud_scan : Viper :=
  process [("github-enterprise-users", "alice")] [].

(** ** The five branches of the target resolver *)

(** The five strategies of §4.2 and §9 of the specification. *)
Inductive ResolutionStrategy : Type :=
| ByLogin | ByOrg | ByOrgThenRepo | ByLoginThenRepo | Invalid.

#[global] Instance ResolutionStrategy_eq_dec : EqDecision ResolutionStrategy.
Proof. solve_decision. Defined.

(** What the branch of [Run_gather] for each strategy does: the gatherers
    it calls, in order, and the errors it logs (lines 49, 56, 64-65, 67-68
    and 70). *)
Definition action (b : ResolutionStrategy) : list fn.t * list string :=
  match b with
  | ByLogin => ([fn.GatherUsers], [])
  | ByOrg => ([fn.GatherOrgs], [])
  | ByOrgThenRepo => ([fn.GatherOrgs; fn.GatherGithubOrgRepositories], [])
  | ByLoginThenRepo => ([fn.GatherUsers; fn.GetGithubRepositoriesFromOwner], [])
  | Invalid => ([], [no_owner_message])
  end.

(** What the resolver did on a session: the events of [Run_gather] from a
    world that holds it. *)
Definition resolver_trace (c : Core) (s : Session) : list event :=
  trace (final (Run_gather c (fresh s))).

(** The resolver selects the branch [b] on the session [s]: it does what
    the branch does, and nothing else. *)
Definition selects (c : Core) (s : Session) (b : ResolutionStrategy) : Prop :=
  (gathers (resolver_trace c s), logged Error (resolver_trace c s)) = action b.

(** The table of §4.2 of the specification, row by row from the top, on
    whether the logins, the organizations and the repositories are
    non-empty; [None] when no row applies. *)
Definition table (logins orgs repos : bool) : option ResolutionStrategy :=
  if logins && negb orgs && negb repos then Some ByLogin
  else if orgs && negb logins && negb repos then Some ByOrg
  else if repos && orgs then Some ByOrgThenRepo
  else if repos && logins && negb orgs then Some ByLoginThenRepo
  else if repos && negb orgs && negb logins then Some Invalid
  else None.

(** The row of the table for a session. *)
Definition strategy (s : Session) : option ResolutionStrategy :=
  table (bool_decide (nonempty (UserLogins s)))
        (bool_decide (nonempty (UserOrgs s)))
        (bool_decide (nonempty (UserRepos s))).

(** A session with the given targets and nothing else. *)
Definition session_of (logins orgs repos : slice) : Session :=
  {| ScanType := scanType; GithubAccessToken := "";
     UserLogins := logins; UserOrgs := orgs; UserRepos := repos;
     Silent := false; BindAddress := "127.0.0.1"; BindPort := 9393;
     SessionStats := {| StartedAt := 0; FinishedAt := None |};
     Repositories := [] |}.

(** Repositories of an organization: [--github-enterprise-orgs acme
    --github-enterprise-repos widget]. *)
Definition acme_widget : Viper :=
  process [] [("github-enterprise-orgs", "acme");
              ("github-enterprise-repos", "widget")].

(** The same with a login in the configuration file as well. *)
Definition alice_acme_widget : Viper :=
  process [("github-enterprise-users", "alice")]
          [("github-enterprise-orgs", "acme");
           ("github-enterprise-repos", "widget")].

(** Repositories of a login. *)
Definition alice_widget : Viper :=
  process [("github-enterprise-users", "alice")]
          [("github-enterprise-repos", "widget")].

(** A login and an organization, no repository. *)
Definition alice_acme : Viper :=
  process [("github-enterprise-users", "alice")]
          [("github-enterprise-orgs", "acme")].

(** The world the stub leaves after the setup of a process started at 0. *)
Definition stub_setup (v : Viper) : World :=
  setup_world stub_core v 0 (NewSession stub_core v scanType 0).

(** A token given with [--github-enterprise-api-token], nothing in the
    configuration file. *)
Definition enterprise_token : string := "0123456789abcdef0123456789abcdef01234567".

Definition token_by_flag : Viper :=
  process [] [("github-enterprise-api-token", enterprise_token);
              ("github-enterprise-orgs", "acme")].

(** ** More of [init]: which flag a key reads, and the error report *)

#[global] Instance command_eq_dec : EqDecision command.
Proof. solve_decision. Defined.

(** The flag set a [BindPFlag] call of [init] looks its flag up in:
    [scanGithubEnterpriseCmd.Flags()] or [scanGithubCmd.Flags()]. *)
Definition flagset (gh : gmap string Flag) (cmdline : gmap string string)
    (cmd : command) : gmap string Flag :=
  match cmd with
  | scanGithubEnterpriseCmd => enterprise_flags cmdline
  | scanGithubCmd => gh
  end.

(** The keys [init] binds to flags of the command [cmd]. *)
Definition keys_bound_to (cmd : command) : list string :=
  map fst (filter (fun kc : string * command => kc.2 = cmd) bindings).

(** The error a [BindPFlag] call returns: the flag looked up for the key
    is nil. *)
Inductive bind_error : Type := FlagIsNil (key : string).

Definition BindPFlag_error (flags : gmap string Flag) (key : string) :
    option bind_error :=
  match flags !! key with
  | Some _ => None
  | None => Some (FlagIsNil key)
  end.

(** The variable [err] when line 136 tests it: every [BindPFlag] call of
    lines 115-134 assigns it anew. *)
Definition init_error (gh : gmap string Flag) (cmdline : gmap string string) :
    option bind_error :=
  fold_left
    (fun (_ : option bind_error) (kc : string * command) =>
       BindPFlag_error (flagset gh cmdline kc.2) kc.1)
    bindings None.

(** The viper instance with the flags of the sibling command alone. *)
Definition sibling_viper (loaded : gmap string string) (gh : gmap string Flag) :
    Viper :=
  {| settings := loaded; pflags := gh |}.

(** The sibling command without a [bind-port] flag. *)
Definition github_flags_without_port : gmap string Flag :=
  delete "bind-port" github_flags.

(** ** More of [Run]: the calls of a whole run *)

(** The gatherers the three blocks of lines 47-72 call, in order, from the
    three [!= nil] tests on logins, organizations and repositories, when
    the gatherers leave the target sets alone. *)
Definition gather_plan (logins orgs repos : bool) : list fn.t :=
  (if logins && (negb orgs && negb repos) then [fn.GatherUsers] else []) ++
  (if orgs && (negb logins && negb repos) then [fn.GatherOrgs] else []) ++
  (if repos then
     if orgs then [fn.GatherOrgs; fn.GatherGithubOrgRepositories]
     else if logins then [fn.GatherUsers; fn.GetGithubRepositoriesFromOwner]
     else []
   else []).

(** The three lines of lines 38-40. *)
Definition banner : list string :=
  [ "%s v%s started at %s\n";
    "Loaded %d signatures.\n";
    "Web interface available at http://%s:%d\n" ].

(** Only [--github-enterprise-orgs acme]. *)
Definition acme_only : Viper :=
  process [] [("github-enterprise-orgs", "acme")].

(** No target at all. *)
Definition no_target : Viper := process [] [].

(** * Properties *)

(** ** Equations of the monad and of the calls *)

Lemma bind_done {A B : Type} (m : M A) (k : A -> M B) (w w' : World) (a : A) :
  m w = Done a w' -> bind m k w = k a w'.
Proof. intros H. unfold bind. now rewrite H. Qed.

Lemma bind_halted {A B : Type} (m : M A) (k : A -> M B) (w w' : World) (h : halt) :
  m w = Halted h w' -> bind m k w = Halted h w'.
Proof. intros H. unfold bind. now rewrite H. Qed.

Lemma call_done (c : Core) (f : fn.t) (w : World) :
  call c f w = Done tt (after_call c f w).
Proof.
  unfold call, after_call, bind, reads, emit, modify, tick; simpl.
  now rewrite <- app_assoc.
Qed.

Lemma finish_done (w : World) : finish w = Done tt (after_finish w).
Proof.
  unfold finish, after_finish, bind, reads, emit, modify; simpl.
  now rewrite <- app_assoc.
Qed.

Lemma out_done (l : level) (m : string) (w : World) :
  out l m w =
  Done tt {| sess := sess w; clock := clock w; trace := trace w ++ [Out l m] |}.
Proof. reflexivity. Qed.

Lemma seq_call {B : Type} (c : Core) (f : fn.t) (k : M B) (w : World) :
  (call c f >> k) w = k (after_call c f w).
Proof. unfold bind. now rewrite call_done. Qed.

(** [Run] after a setup that completed. *)
Lemma Run_after_setup (c : Core) (v : Viper) (now : Z) (w : World) :
  Run_setup c v now = Done tt w ->
  Run c v now = (Run_gather c >> Run_report c) w.
Proof. intros H. unfold Run. now rewrite H. Qed.

(** [nil] and emptiness agree on normalised slices. *)
Lemma nonempty_not_nil (s : slice) : nonempty s -> not_nil s = true.
Proof.
  destruct s; [reflexivity|].
  unfold nonempty; simpl; intros H; exfalso; lia.
Qed.

Lemma empty_is_nil (s : slice) : normalised s -> empty s -> s = None.
Proof.
  unfold normalised, empty.
  destruct s as [[|x l]|]; simpl; intros Hn He;
    first [congruence | lia | exfalso; lia].
Qed.

Lemma not_nil_nonempty (s : slice) : normalised s -> not_nil s = true -> nonempty s.
Proof.
  unfold normalised, nonempty, not_nil.
  destruct s as [[|x l]|]; simpl; intros Hn He;
    first [congruence | lia | exfalso; lia].
Qed.

(** What the laws say field by field. *)
Section Laws.
Context (c : Core) (laws : CoreLaws c).

Lemma exec_UserLogins f s : UserLogins (exec c f s) = UserLogins s.
Proof. pose proof (exec_config c laws f s) as H. unfold config_of in H. congruence. Qed.

Lemma exec_UserOrgs f s : UserOrgs (exec c f s) = UserOrgs s.
Proof. pose proof (exec_config c laws f s) as H. unfold config_of in H. congruence. Qed.

Lemma exec_UserRepos f s : UserRepos (exec c f s) = UserRepos s.
Proof. pose proof (exec_config c laws f s) as H. unfold config_of in H. congruence. Qed.

Lemma exec_Silent f s : Silent (exec c f s) = Silent s.
Proof. pose proof (exec_config c laws f s) as H. unfold config_of in H. congruence. Qed.

Lemma exec_GithubAccessToken f s :
  GithubAccessToken (exec c f s) = GithubAccessToken s.
Proof. pose proof (exec_config c laws f s) as H. unfold config_of in H. congruence. Qed.
End Laws.

(** *** The three blocks of [Run_gather], case by case *)

Arguments call : simpl never.
Arguments finish : simpl never.

(** Runs the conditions of [Run_gather] once the three slices are known. *)
Ltac gather_blocks :=
  unfold Run_gather, bind, reads, when, not_nil;
  repeat (progress (cbn;
    repeat match goal with
           | H : _ (sess _) = _ |- _ => rewrite H
           end;
    rewrite ?call_done)).

(** Repositories with organizations: lines 63-65, whatever the logins. *)
Lemma Run_gather_orgs_repos (c : Core) (w : World) (o r : list string) :
  UserOrgs (sess w) = Some o ->
  UserRepos (sess w) = Some r ->
  Run_gather c w =
  Done tt (after_call c fn.GatherGithubOrgRepositories
             (after_call c fn.GatherOrgs w)).
Proof.
  intros Eo Er.
  destruct (UserLogins (sess w)) as [l|] eqn:El; now gather_blocks.
Qed.

(** Repositories with logins and no organization: lines 66-68. *)
Lemma Run_gather_logins_repos (c : Core) (w : World) (l r : list string) :
  UserLogins (sess w) = Some l ->
  UserOrgs (sess w) = None ->
  UserRepos (sess w) = Some r ->
  Run_gather c w =
  Done tt (after_call c fn.GetGithubRepositoriesFromOwner
             (after_call c fn.GatherUsers w)).
Proof. intros El Eo Er. now gather_blocks. Qed.

(** Repositories alone: lines 69-71. *)
Lemma Run_gather_repos_only (c : Core) (w : World) (r : list string) :
  UserLogins (sess w) = None ->
  UserOrgs (sess w) = None ->
  UserRepos (sess w) = Some r ->
  Run_gather c w =
  Done tt {| sess := sess w; clock := clock w;
             trace := trace w ++ [Out Error no_owner_message] |}.
Proof. intros El Eo Er. now gather_blocks. Qed.

(** Logins and organizations without repositories: no block is entered. *)
Lemma Run_gather_logins_orgs (c : Core) (w : World) (l o : list string) :
  UserLogins (sess w) = Some l ->
  UserOrgs (sess w) = Some o ->
  UserRepos (sess w) = None ->
  Run_gather c w = Done tt w.
Proof. intros El Eo Er. now gather_blocks. Qed.

(** No target at all: no block is entered. *)
Lemma Run_gather_nothing (c : Core) (w : World) :
  UserLogins (sess w) = None ->
  UserOrgs (sess w) = None ->
  UserRepos (sess w) = None ->
  Run_gather c w = Done tt w.
Proof. intros El Eo Er. now gather_blocks. Qed.

(** Logins alone: lines 47-51; the later blocks see the same target sets. *)
Lemma Run_gather_logins_only (c : Core) (w : World) (l : list string) :
  CoreLaws c ->
  UserLogins (sess w) = Some l ->
  UserOrgs (sess w) = None ->
  UserRepos (sess w) = None ->
  Run_gather c w = Done tt (after_call c fn.GatherUsers w).
Proof.
  intros laws El Eo Er.
  unfold Run_gather, bind, reads, when, not_nil; cbn.
  rewrite El; cbn. rewrite Eo, Er; cbn. rewrite call_done; cbn.
  rewrite exec_UserOrgs, Eo by assumption; cbn.
  rewrite exec_UserRepos, Er by assumption.
  reflexivity.
Qed.

(** Organizations alone: lines 54-58. *)
Lemma Run_gather_orgs_only (c : Core) (w : World) (o : list string) :
  CoreLaws c ->
  UserLogins (sess w) = None ->
  UserOrgs (sess w) = Some o ->
  UserRepos (sess w) = None ->
  Run_gather c w = Done tt (after_call c fn.GatherOrgs w).
Proof.
  intros laws El Eo Er.
  unfold Run_gather, bind, reads, when, not_nil; cbn.
  rewrite El; cbn. rewrite Eo; cbn. rewrite El, Er; cbn.
  rewrite call_done; cbn.
  rewrite exec_UserRepos, Er by assumption.
  reflexivity.
Qed.

(** *** The end of [Run]: lines 74-82 *)

Lemma Run_report_eq (c : Core) (w : World) :
  Run_report c w =
  if Silent (sess (after_report c w))
  then Done tt (after_report c w)
  else Halted Blocked (say Important ctrl_c_notice (after_report c w)).
Proof.
  unfold Run_report. rewrite seq_call.
  unfold bind at 1. rewrite finish_done. rewrite seq_call.
  unfold bind, reads, when. fold (after_report c w).
  destruct (Silent (sess (after_report c w))); reflexivity.
Qed.

(** *** The beginning of [Run]: lines 26-43 *)

Lemma Run_setup_eq (c : Core) (v : Viper) (now : Z) :
  Run_setup c v now =
  let s0 := NewSession c v scanType now in
  match ValidateUserInput c v s0 with
  | Some s1 => Done tt (setup_world c v now s1)
  | None =>
      Halted Exited
        {| sess := s0; clock := now;
           trace := [Return fn.NewSession s0; Call fn.ValidateUserInput s0] |}
  end.
Proof.
  unfold Run_setup, setup_world, token_events. cbn zeta.
  destruct (ValidateUserInput c v (NewSession c v scanType now)) as [s1|];
    [|reflexivity].
  unfold bind, emit, modify, out, emit, CheckGithubAPIToken, bind, reads,
    when, ret; cbn.
  destruct (bool_decide (GetString v "github-api-token" = "")); cbn;
    now rewrite call_done.
Qed.

Lemma Run_setup_done (c : Core) (v : Viper) (now : Z) (w : World) :
  Run_setup c v now = Done tt w ->
  exists s1,
    ValidateUserInput c v (NewSession c v scanType now) = Some s1 /\
    w = setup_world c v now s1.
Proof.
  rewrite Run_setup_eq. cbn zeta.
  destruct (ValidateUserInput c v (NewSession c v scanType now)) as [s1|];
    [|discriminate].
  intros [= <-]. now exists s1.
Qed.

(** *** Traces of the pieces *)

Lemma calls_app (tr1 tr2 : list event) : calls (tr1 ++ tr2) = calls tr1 ++ calls tr2.
Proof. apply omap_app. Qed.

Lemma gathers_app (tr1 tr2 : list event) :
  gathers (tr1 ++ tr2) = gathers tr1 ++ gathers tr2.
Proof. unfold gathers. rewrite calls_app. apply filter_app. Qed.

Lemma logged_app (l : level) (tr1 tr2 : list event) :
  logged l (tr1 ++ tr2) = logged l tr1 ++ logged l tr2.
Proof. apply omap_app. Qed.

Lemma after_report_trace (c : Core) (w : World) :
  trace (after_report c w) = trace w ++ report_events c w.
Proof.
  unfold after_report, report_events, after_call, after_finish; cbn.
  now rewrite <- !app_assoc.
Qed.

Lemma Run_report_trace (c : Core) (w : World) :
  trace (final (Run_report c w)) =
  trace w ++ report_events c w ++
  closing_events (Silent (sess (after_report c w))).
Proof.
  rewrite Run_report_eq. unfold closing_events.
  destruct (Silent (sess (after_report c w))); cbn [final say trace];
    rewrite after_report_trace; [now rewrite app_nil_r | now rewrite app_assoc].
Qed.

Lemma Run_report_ending (c : Core) (w : World) :
  ending_of (Run_report c w) =
  if Silent (sess (after_report c w)) then Returns else Blocks.
Proof.
  rewrite Run_report_eq. now destruct (Silent (sess (after_report c w))).
Qed.

Lemma Run_report_sess (c : Core) (w : World) :
  sess (final (Run_report c w)) = sess (after_report c w).
Proof.
  rewrite Run_report_eq. now destruct (Silent (sess (after_report c w))).
Qed.

(** [Run] once the setup left [w] and the gathering left [w']. *)
Lemma Run_after_gather (c : Core) (v : Viper) (now : Z) (w w' : World) :
  Run_setup c v now = Done tt w ->
  Run_gather c w = Done tt w' ->
  Run c v now = Run_report c w'.
Proof.
  intros Hs Hg. rewrite (Run_after_setup c v now w Hs).
  unfold bind. now rewrite Hg.
Qed.

Lemma setup_calls (c : Core) (v : Viper) (now : Z) (s1 : Session) :
  calls (trace (setup_world c v now s1)) =
  [fn.ValidateUserInput; fn.CheckGithubAPIToken; fn.InitGitClient].
Proof.
  unfold setup_world, token_events; cbn.
  now destruct (bool_decide (GetString v "github-api-token" = "")).
Qed.

Lemma setup_logged_Error (c : Core) (v : Viper) (now : Z) (s1 : Session) :
  logged Error (trace (setup_world c v now s1)) = [].
Proof.
  unfold setup_world, token_events; cbn.
  now destruct (bool_decide (GetString v "github-api-token" = "")).
Qed.

Lemma setup_gathers (c : Core) (v : Viper) (now : Z) (s1 : Session) :
  gathers (trace (setup_world c v now s1)) = [].
Proof. unfold gathers. now rewrite setup_calls. Qed.

Lemma report_calls (c : Core) (w : World) :
  calls (report_events c w) =
  [fn.AnalyzeRepositories; fn.Finish; fn.PrintSessionStats].
Proof. reflexivity. Qed.

Lemma closing_calls (b : bool) : calls (closing_events b) = [].
Proof. now destruct b. Qed.

Lemma closing_logged_Error (b : bool) : logged Error (closing_events b) = [].
Proof. now destruct b. Qed.

(** ** The test double obeys the laws *)

Lemma stub_laws : CoreLaws stub_core.
Proof.
  split; try reflexivity.
  - intros v s s' [= ->]. reflexivity.
  - intros v s s' [= ->]. reflexivity.
  - intros f s. now destruct f.
  - intros f s. now destruct f.
  - intros f s. now destruct f.
Qed.

(** ** Repositories without an owner *)

(** C1, as stated, fails: with only repositories given, the process does
    not exit and [AnalyzeRepositories] is called. *)
Lemma repos_without_owner_still_analyzed :
  exists w,
    Run_setup stub_core widget_only 0 = Done tt w /\
    nonempty (UserRepos (sess w)) /\
    empty (UserOrgs (sess w)) /\
    empty (UserLogins (sess w)) /\
    ~ (ending_of (Run stub_core widget_only 0) = Exits /\
       ~ In fn.AnalyzeRepositories
            (calls (trace (final (Run stub_core widget_only 0))))).
Proof.
  eexists. split; [vm_compute; reflexivity|].
  repeat split; try (vm_compute; lia).
  vm_compute. intros [H _]. discriminate H.
Qed.

(** C1, amended: with repositories given and neither organizations nor
    logins, [Run] logs the error that an org or user is needed, calls no
    gatherer and leaves the session as the setup left it (nothing is
    resolved); it then goes on with that session to [AnalyzeRepositories],
    [Finish] and [PrintSessionStats], and the process does not exit
    there. *)
Theorem repos_without_owner_reported (c : Core) (v : Viper) (now : Z) (w : World) :
  Run_setup c v now = Done tt w ->
  targets_normalised (sess w) ->
  nonempty (UserRepos (sess w)) ->
  empty (UserOrgs (sess w)) ->
  empty (UserLogins (sess w)) ->
  let r := Run c v now in
  trace (final r) =
    trace w ++ [Out Error no_owner_message] ++ report_events c w ++
    closing_events (Silent (sess (final r))) /\
  gathers (trace (final r)) = [] /\
  logged Error (trace (final r)) = [no_owner_message] /\
  calls (report_events c w) =
    [fn.AnalyzeRepositories; fn.Finish; fn.PrintSessionStats] /\
  In (Call fn.AnalyzeRepositories (sess w)) (trace (final r)) /\
  ending_of r <> Exits.
Proof.
  intros Hs (Hnl & Hno & Hnr) Hr Ho Hl r.
  apply empty_is_nil in Ho, Hl; [|assumption..].
  destruct (UserRepos (sess w)) as [repos|] eqn:Er;
    [|exfalso; unfold nonempty in Hr; simpl in Hr; lia].
  pose proof (Run_gather_repos_only c w repos Hl Ho Er) as Hg.
  set (w' := say Error no_owner_message w) in *.
  assert (Hrun : r = Run_report c w')
    by exact (Run_after_gather c v now w w' Hs Hg).
  assert (Htr : trace (final r) =
                trace w ++ [Out Error no_owner_message] ++ report_events c w ++
                closing_events (Silent (sess (final r)))).
  { rewrite Hrun, Run_report_sess, Run_report_trace.
    unfold w' at 1; cbn [say trace]. now rewrite <- app_assoc. }
  destruct (Run_setup_done c v now w Hs) as (s1 & _ & Hw).
  repeat split.
  - exact Htr.
  - rewrite Htr, !gathers_app. rewrite Hw at 1. rewrite setup_gathers.
    unfold gathers. now rewrite report_calls, closing_calls.
  - rewrite Htr, !logged_app. rewrite Hw at 1.
    now rewrite setup_logged_Error, closing_logged_Error.
  - rewrite Htr. apply in_or_app. right. right. left. reflexivity.
  - rewrite Hrun, Run_report_ending.
    now destruct (Silent (sess (after_report c w'))).
Qed.

Lemma repos_without_owner_reported_witness :
  gathers (trace (final (Run stub_core widget_only 0))) = [] /\
  logged Error (trace (final (Run stub_core widget_only 0))) =
    [no_owner_message] /\
  ending_of (Run stub_core widget_only 0) <> Exits.
Proof.
  pose proof (repos_without_owner_reported stub_core widget_only 0
                (setup_world stub_core widget_only 0
                   (NewSession stub_core widget_only scanType 0))) as H.
  cbv zeta in H.
  destruct H as (_ & Hg & He & _ & _ & Hx).
  - vm_compute; reflexivity.
  - vm_compute; repeat split; discriminate.
  - vm_compute; lia.
  - vm_compute; reflexivity.
  - vm_compute; reflexivity.
  - exact (conj Hg (conj He Hx)).
Defined.

(** ** The frame of the gathering *)

Lemma frame_refl (w : World) : frame w w.
Proof.
  repeat split; try lia. exists []. rewrite app_nil_r.
  repeat split; constructor.
Qed.

Lemma frame_trans (w1 w2 w3 : World) : frame w1 w2 -> frame w2 w3 -> frame w1 w3.
Proof.
  intros (Hc1 & Hs1 & Ht1 & tr1 & Htr1 & Hsh1 & Hf1 & Hi1)
         (Hc2 & Hs2 & Ht2 & tr2 & Htr2 & Hsh2 & Hf2 & Hi2).
  repeat split; try congruence; try lia.
  exists (tr1 ++ tr2). repeat split.
  - now rewrite Htr2, Htr1, app_assoc.
  - unfold shows_stats in *. rewrite Hs1 in Hsh2. now apply Forall_app.
  - rewrite calls_app. now apply Forall_app.
  - now rewrite logged_app, Hi1, Hi2.
Qed.

Lemma frame_say_Error (m : string) (w : World) : frame w (say Error m w).
Proof.
  repeat split; cbn; try lia. exists [Out Error m].
  repeat split; [|constructor].
  constructor; [|constructor]. intros s [=].
Qed.

Lemma frame_after_call (c : Core) (f : fn.t) (w : World) :
  CoreLaws c -> fn.is_gatherer f = true -> frame w (after_call c f w).
Proof.
  intros laws Hf. unfold frame, after_call; cbn.
  rewrite (exec_config c laws), (exec_stats c laws).
  repeat split; try lia.
  exists [Call f (sess w); Return f (exec c f (sess w))].
  repeat split.
  - repeat constructor; intros s [= <-]; [reflexivity|].
    apply (exec_stats c laws).
  - cbn. repeat constructor. exact Hf.
Qed.

(** The gathering always completes, and is framed. *)
Lemma Run_gather_frame (c : Core) (w : World) :
  CoreLaws c -> exists w', Run_gather c w = Done tt w' /\ frame w w'.
Proof.
  intros laws.
  destruct (UserLogins (sess w)) as [l|] eqn:El;
    destruct (UserOrgs (sess w)) as [o|] eqn:Eo;
    destruct (UserRepos (sess w)) as [r|] eqn:Er.
  - eexists; split; [exact (Run_gather_orgs_repos c w o r Eo Er)|].
    eapply frame_trans; apply frame_after_call; auto.
  - eexists; split; [exact (Run_gather_logins_orgs c w l o El Eo Er)|].
    apply frame_refl.
  - eexists; split; [exact (Run_gather_logins_repos c w l r El Eo Er)|].
    eapply frame_trans; apply frame_after_call; auto.
  - eexists; split; [exact (Run_gather_logins_only c w l laws El Eo Er)|].
    apply frame_after_call; auto.
  - eexists; split; [exact (Run_gather_orgs_repos c w o r Eo Er)|].
    eapply frame_trans; apply frame_after_call; auto.
  - eexists; split; [exact (Run_gather_orgs_only c w o laws El Eo Er)|].
    apply frame_after_call; auto.
  - eexists; split; [exact (Run_gather_repos_only c w r El Eo Er)|].
    apply (frame_say_Error no_owner_message w).
  - eexists; split; [exact (Run_gather_nothing c w El Eo Er)|].
    apply frame_refl.
Qed.

Lemma frame_Silent (w w' : World) : frame w w' -> Silent (sess w') = Silent (sess w).
Proof. intros (Hc & _). unfold config_of in Hc. congruence. Qed.

Lemma frame_GithubAccessToken (w w' : World) :
  frame w w' -> GithubAccessToken (sess w') = GithubAccessToken (sess w).
Proof. intros (Hc & _). unfold config_of in Hc. congruence. Qed.

(** The report keeps the configuration of the session. *)
Lemma after_report_config (c : Core) (w : World) :
  CoreLaws c -> config_of (sess (after_report c w)) = config_of (sess w).
Proof.
  intros laws. unfold after_report, after_call, after_finish; cbn.
  rewrite (exec_config c laws). unfold config_of at 1; cbn.
  apply (exec_config c laws).
Qed.

(** ** The silent flag *)

(** C3, as stated, fails: a silent run does not block, it returns; the
    same run without the flag blocks. *)
Lemma silent_run_does_not_block :
  exists w,
    Run_setup stub_core silent_scan 0 = Done tt w /\
    Silent (sess w) = true /\
    ending_of (Run stub_core silent_scan 0) <> Blocks /\
    ending_of (Run stub_core loud_scan 0) = Blocks.
Proof.
  eexists. split; [vm_compute; reflexivity|].
  repeat split; vm_compute; congruence.
Qed.

(** C3, amended: when the session is silent, [Run] returns once
    [PrintSessionStats] has returned: the Ctrl+C notice is not printed and
    the process does not block.  When it is not silent, the notice is
    printed after the report and the process then blocks for ever. *)
Theorem silent_skips_notice_and_block (c : Core) (v : Viper) (now : Z) (w : World) :
  CoreLaws c ->
  Run_setup c v now = Done tt w ->
  let r := Run c v now in
  exists tr s,
    (Silent (sess w) = true ->
     ending_of r = Returns /\
     trace (final r) = tr ++ [Return fn.PrintSessionStats s]) /\
    (Silent (sess w) = false ->
     ending_of r = Blocks /\
     trace (final r) =
       tr ++ [Return fn.PrintSessionStats s; Out Important ctrl_c_notice]).
Proof.
  intros laws Hs r.
  destruct (Run_gather_frame c w laws) as (w' & Hg & Hf).
  assert (Hrun : r = Run_report c w')
    by exact (Run_after_gather c v now w w' Hs Hg).
  assert (Hsil : Silent (sess (after_report c w')) = Silent (sess w)).
  { rewrite <- (frame_Silent w w' Hf).
    pose proof (after_report_config c w' laws) as H.
    unfold config_of in H. congruence. }
  exists (trace w' ++
          [Call fn.AnalyzeRepositories (sess w');
           Return fn.AnalyzeRepositories
             (sess (after_call c fn.AnalyzeRepositories w'));
           Call fn.Finish (sess (after_call c fn.AnalyzeRepositories w'));
           Return fn.Finish
             (sess (after_finish (after_call c fn.AnalyzeRepositories w')));
           Call fn.PrintSessionStats
             (sess (after_finish (after_call c fn.AnalyzeRepositories w')))]),
         (sess (after_report c w')).
  split; intros Hb; rewrite Hrun, Run_report_ending, Run_report_trace, Hsil, Hb;
    (split; [reflexivity|]);
    unfold report_events, closing_events; cbv zeta;
    fold (after_report c w'); rewrite <- !app_assoc; reflexivity.
Qed.

Lemma silent_skips_notice_and_block_witness :
  ending_of (Run stub_core silent_scan 0) = Returns /\
  ending_of (Run stub_core loud_scan 0) = Blocks.
Proof.
  split.
  - destruct (silent_skips_notice_and_block stub_core silent_scan 0
                (setup_world stub_core silent_scan 0
                   (NewSession stub_core silent_scan scanType 0)) stub_laws)
      as (tr & s & H & _).
    + vm_compute; reflexivity.
    + apply H. vm_compute; reflexivity.
  - destruct (silent_skips_notice_and_block stub_core loud_scan 0
                (setup_world stub_core loud_scan 0
                   (NewSession stub_core loud_scan scanType 0)) stub_laws)
      as (tr & s & _ & H).
    + vm_compute; reflexivity.
    + apply H. vm_compute; reflexivity.
Defined.

(** ** The five-way classification *)

Lemma nonempty_cons (x : string) (l : list string) :
  bool_decide (nonempty (Some (x :: l))) = true.
Proof. apply bool_decide_eq_true_2. unfold nonempty; simpl; lia. Qed.

Lemma nonempty_nil : bool_decide (nonempty None) = false.
Proof. apply bool_decide_eq_false_2. unfold nonempty; simpl; lia. Qed.

Lemma action_inj (b1 b2 : ResolutionStrategy) : action b1 = action b2 -> b1 = b2.
Proof. destruct b1, b2; simpl; intros H; first [reflexivity | discriminate H]. Qed.

Lemma action_not_idle (b : ResolutionStrategy) : action b <> ([], []).
Proof. destruct b; discriminate. Qed.

(** What the resolver does is what the row of the table says, and nothing
    when no row applies. *)
Lemma resolver_does (c : Core) (s : Session) :
  CoreLaws c ->
  targets_normalised s ->
  (gathers (resolver_trace c s), logged Error (resolver_trace c s)) =
  match strategy s with
  | Some b => action b
  | None => ([], [])
  end.
Proof.
  intros laws (Hl & Ho & Hr). unfold resolver_trace, strategy.
  destruct (UserLogins s) as [[|l ls]|] eqn:El; [now destruct Hl | |];
    destruct (UserOrgs s) as [[|o os]|] eqn:Eo; try (now destruct Ho);
    destruct (UserRepos s) as [[|r rs]|] eqn:Er; try (now destruct Hr);
    rewrite ?nonempty_cons, ?nonempty_nil; cbn [table andb negb].
  - now rewrite (Run_gather_orgs_repos c (fresh s) _ _ Eo Er).
  - now rewrite (Run_gather_logins_orgs c (fresh s) _ _ El Eo Er).
  - now rewrite (Run_gather_logins_repos c (fresh s) _ _ El Eo Er).
  - now rewrite (Run_gather_logins_only c (fresh s) _ laws El Eo Er).
  - now rewrite (Run_gather_orgs_repos c (fresh s) _ _ Eo Er).
  - now rewrite (Run_gather_orgs_only c (fresh s) _ laws El Eo Er).
  - now rewrite (Run_gather_repos_only c (fresh s) _ El Eo Er).
  - now rewrite (Run_gather_nothing c (fresh s) El Eo Er).
Qed.

(** C4, as stated, fails: with logins and organizations and no repository,
    the resolver selects none of the five branches. *)
Lemma logins_and_orgs_select_no_branch :
  let s := session_of (Some ["alice"]) (Some ["acme"]) None in
  targets_normalised s /\
  nonempty (UserLogins s) /\ nonempty (UserOrgs s) /\ empty (UserRepos s) /\
  ~ exists b, selects stub_core s b.
Proof.
  cbv zeta. repeat split; try discriminate; try (vm_compute; lia).
  intros [b H]. destruct b; vm_compute in H; discriminate H.
Qed.

Lemma strategy_None_iff (s : Session) :
  strategy s = None <->
  empty (UserRepos s) /\ (nonempty (UserLogins s) <-> nonempty (UserOrgs s)).
Proof.
  unfold strategy, empty.
  repeat case_bool_decide; cbn [table andb negb]; unfold nonempty in *;
    (split; [intros Hnone; try discriminate Hnone | intros [He Hiff]];
     first [reflexivity | exfalso; lia | exfalso; tauto | idtac]).
  all: split; [lia | tauto].
Qed.

Lemma strategy_repos_only (s : Session) :
  nonempty (UserRepos s) -> empty (UserOrgs s) -> empty (UserLogins s) ->
  strategy s = Some Invalid.
Proof.
  unfold strategy, empty. intros Hr Ho Hl.
  rewrite (bool_decide_eq_true_2 _ Hr).
  rewrite !bool_decide_eq_false_2 by (unfold nonempty; lia).
  reflexivity.
Qed.

(** C4, amended: for every combination of the three target sets, the
    resolver selects at most one of the five branches, the one of the row
    of the table that applies: exactly one when repositories are given or
    when exactly one of logins and organizations is given, and none, doing
    nothing, when no repository is given and logins and organizations are
    both given or both missing.  Repositories with no owner always select
    the invalid branch, which logs the configuration error. *)
Theorem resolver_selects_table_row (c : Core) (s : Session) :
  CoreLaws c ->
  targets_normalised s ->
  (forall b, selects c s b <-> strategy s = Some b) /\
  (strategy s = None <->
   empty (UserRepos s) /\ (nonempty (UserLogins s) <-> nonempty (UserOrgs s))) /\
  (strategy s = None ->
   gathers (resolver_trace c s) = [] /\ logged Error (resolver_trace c s) = []) /\
  (nonempty (UserRepos s) -> empty (UserOrgs s) -> empty (UserLogins s) ->
   selects c s Invalid /\ logged Error (resolver_trace c s) = [no_owner_message]).
Proof.
  intros laws Hn.
  pose proof (resolver_does c s laws Hn) as Hdo.
  assert (Hsel : forall b, selects c s b <-> strategy s = Some b).
  { intros b. unfold selects. rewrite Hdo.
    destruct (strategy s) as [b'|]; split; intros H.
    - f_equal. now apply action_inj.
    - congruence.
    - symmetry in H. now apply action_not_idle in H.
    - discriminate. }
  split; [exact Hsel|].
  split; [apply strategy_None_iff|].
  split.
  - intros Hnone. rewrite Hnone in Hdo. now inversion Hdo.
  - intros Hr Ho Hl.
    pose proof (strategy_repos_only s Hr Ho Hl) as Hinv.
    split; [now apply Hsel|].
    rewrite Hinv in Hdo. now inversion Hdo.
Qed.

Lemma resolver_selects_table_row_witness :
  let s := session_of None None (Some ["widget"]) in
  selects stub_core s Invalid /\
  logged Error (resolver_trace stub_core s) = [no_owner_message].
Proof.
  cbv zeta.
  apply (resolver_selects_table_row stub_core
           (session_of None None (Some ["widget"])) stub_laws).
  - vm_compute; repeat split; discriminate.
  - vm_compute; lia.
  - vm_compute; reflexivity.
  - vm_compute; reflexivity.
Defined.

(** ** The two-stage branches *)

(** [Run] when the gathering is a prerequisite [f] followed by a dependent
    gather [g]. *)
Lemma Run_two_stage (c : Core) (v : Viper) (now : Z) (w : World) (f g : fn.t) :
  Run_setup c v now = Done tt w ->
  Run_gather c w = Done tt (after_call c g (after_call c f w)) ->
  fn.is_gatherer f = true ->
  fn.is_gatherer g = true ->
  exists post,
    trace (final (Run c v now)) =
      trace w ++
      [Call f (sess w); Return f (exec c f (sess w));
       Call g (exec c f (sess w)); Return g (exec c g (exec c f (sess w)))] ++
      post /\
    gathers (trace w) = [] /\
    gathers post = [] /\
    gathers (trace (final (Run c v now))) = [f; g].
Proof.
  intros Hs Hg Hf Hg'.
  rewrite (Run_after_gather c v now w _ Hs Hg), Run_report_trace.
  set (w2 := after_call c g (after_call c f w)).
  exists (report_events c w2 ++ closing_events (Silent (sess (after_report c w2)))).
  destruct (Run_setup_done c v now w Hs) as (s1 & _ & Hw).
  assert (Hpre : gathers (trace w) = []) by (rewrite Hw; apply setup_gathers).
  assert (Hpost : gathers (report_events c w2 ++
                           closing_events (Silent (sess (after_report c w2)))) = []).
  { rewrite gathers_app. unfold gathers.
    now rewrite report_calls, closing_calls. }
  assert (Htr : trace w2 =
                trace w ++
                [Call f (sess w); Return f (exec c f (sess w));
                 Call g (exec c f (sess w));
                 Return g (exec c g (exec c f (sess w)))]).
  { unfold w2, after_call; cbn. now rewrite <- app_assoc. }
  repeat split.
  - rewrite Htr. now rewrite <- !app_assoc.
  - exact Hpre.
  - exact Hpost.
  - rewrite gathers_app, Hpost, app_nil_r, Htr, gathers_app, Hpre.
    unfold gathers; cbn. now rewrite !decide_True by assumption.
Qed.

(** C5: in the two branches that resolve owners before repositories, the
    prerequisite gather ([GatherOrgs], or [GatherUsers]) has returned when
    the dependent gather ([GatherGithubOrgRepositories], or
    [GetGithubRepositoriesFromOwner]) is entered, the dependent gather
    starts from the session the prerequisite left, and no other gatherer
    event occurs in the run: the two stages do not interleave. *)
Theorem prerequisite_gather_completes_first (c : Core) (v : Viper) (now : Z) (w : World) :
  Run_setup c v now = Done tt w ->
  targets_normalised (sess w) ->
  nonempty (UserRepos (sess w)) ->
  nonempty (UserOrgs (sess w)) \/ nonempty (UserLogins (sess w)) ->
  exists f g s1 s2 post,
    (nonempty (UserOrgs (sess w)) /\
       f = fn.GatherOrgs /\ g = fn.GatherGithubOrgRepositories \/
     empty (UserOrgs (sess w)) /\
       f = fn.GatherUsers /\ g = fn.GetGithubRepositoriesFromOwner) /\
    trace (final (Run c v now)) =
      trace w ++ [Call f (sess w); Return f s1; Call g s1; Return g s2] ++ post /\
    gathers (trace w) = [] /\
    gathers post = [].
Proof.
  intros Hs (Hnl & Hno & Hnr) Hr Hown.
  destruct (UserRepos (sess w)) as [r|] eqn:Er;
    [|exfalso; unfold nonempty in Hr; simpl in Hr; lia].
  destruct (UserOrgs (sess w)) as [o|] eqn:Eo.
  - assert (Ho : nonempty (Some o)).
    { apply not_nil_nonempty; [assumption | reflexivity]. }
    destruct (Run_two_stage c v now w fn.GatherOrgs
                fn.GatherGithubOrgRepositories Hs
                (Run_gather_orgs_repos c w o r Eo Er) eq_refl eq_refl)
      as (post & Htr & Hpre & Hpost & _).
    exists fn.GatherOrgs, fn.GatherGithubOrgRepositories.
    do 2 eexists. exists post. repeat split; eauto.
  - destruct Hown as [Ho|Hl];
      [exfalso; unfold nonempty in Ho; simpl in Ho; lia|].
    destruct (UserLogins (sess w)) as [l|] eqn:El;
      [|exfalso; unfold nonempty in Hl; simpl in Hl; lia].
    destruct (Run_two_stage c v now w fn.GatherUsers
                fn.GetGithubRepositoriesFromOwner Hs
                (Run_gather_logins_repos c w l r El Eo Er) eq_refl eq_refl)
      as (post & Htr & Hpre & Hpost & _).
    exists fn.GatherUsers, fn.GetGithubRepositoriesFromOwner.
    do 2 eexists. exists post. repeat split; eauto.
    right. repeat split; reflexivity.
Qed.

Lemma prerequisite_gather_completes_first_witness :
  exists f g s1 s2 post,
    trace (final (Run stub_core acme_widget 0)) =
      trace (stub_setup acme_widget) ++
      [Call f (sess (stub_setup acme_widget)); Return f s1;
       Call g s1; Return g s2] ++ post /\
    gathers post = [].
Proof.
  destruct (prerequisite_gather_completes_first stub_core acme_widget 0
              (stub_setup acme_widget))
    as (f & g & s1 & s2 & post & _ & Htr & _ & Hpost).
  - vm_compute; reflexivity.
  - vm_compute; repeat split; discriminate.
  - vm_compute; lia.
  - left. vm_compute; lia.
  - exists f, g, s1, s2, post. split; assumption.
Defined.

(** C6: with repositories and logins given and no organization, the
    resolver calls [GatherUsers], then
    [GetGithubRepositoriesFromOwner] on the session [GatherUsers] left,
    and the run calls no other gatherer. *)
Theorem logins_then_named_repositories (c : Core) (v : Viper) (now : Z) (w : World) :
  Run_setup c v now = Done tt w ->
  targets_normalised (sess w) ->
  nonempty (UserRepos (sess w)) ->
  nonempty (UserLogins (sess w)) ->
  empty (UserOrgs (sess w)) ->
  gathers (trace (final (Run c v now))) =
    [fn.GatherUsers; fn.GetGithubRepositoriesFromOwner] /\
  exists post,
    trace (final (Run c v now)) =
      trace w ++
      [Call fn.GatherUsers (sess w);
       Return fn.GatherUsers (exec c fn.GatherUsers (sess w));
       Call fn.GetGithubRepositoriesFromOwner (exec c fn.GatherUsers (sess w));
       Return fn.GetGithubRepositoriesFromOwner
         (exec c fn.GetGithubRepositoriesFromOwner
            (exec c fn.GatherUsers (sess w)))] ++ post.
Proof.
  intros Hs (Hnl & Hno & Hnr) Hr Hl Ho.
  apply empty_is_nil in Ho; [|assumption].
  destruct (UserRepos (sess w)) as [r|] eqn:Er;
    [|exfalso; unfold nonempty in Hr; simpl in Hr; lia].
  destruct (UserLogins (sess w)) as [l|] eqn:El;
    [|exfalso; unfold nonempty in Hl; simpl in Hl; lia].
  destruct (Run_two_stage c v now w fn.GatherUsers
              fn.GetGithubRepositoriesFromOwner Hs
              (Run_gather_logins_repos c w l r El Ho Er) eq_refl eq_refl)
    as (post & Htr & _ & _ & Hall).
  split; [exact Hall | now exists post].
Qed.

Lemma logins_then_named_repositories_witness :
  gathers (trace (final (Run stub_core alice_widget 0))) =
    [fn.GatherUsers; fn.GetGithubRepositoriesFromOwner].
Proof.
  apply (logins_then_named_repositories stub_core alice_widget 0
           (stub_setup alice_widget)).
  - vm_compute; reflexivity.
  - vm_compute; repeat split; discriminate.
  - vm_compute; lia.
  - vm_compute; lia.
  - vm_compute; reflexivity.
Defined.

(** C10: with repositories and organizations both given, the run calls
    [GatherOrgs] then [GatherGithubOrgRepositories] and no other gatherer,
    whatever the logins: [GatherUsers] and
    [GetGithubRepositoriesFromOwner] are never called. *)
Theorem orgs_path_ignores_logins (c : Core) (v : Viper) (now : Z) (w : World) :
  Run_setup c v now = Done tt w ->
  nonempty (UserRepos (sess w)) ->
  nonempty (UserOrgs (sess w)) ->
  gathers (trace (final (Run c v now))) =
    [fn.GatherOrgs; fn.GatherGithubOrgRepositories] /\
  ~ In fn.GatherUsers (calls (trace (final (Run c v now)))) /\
  ~ In fn.GetGithubRepositoriesFromOwner (calls (trace (final (Run c v now)))).
Proof.
  intros Hs Hr Ho.
  destruct (UserRepos (sess w)) as [r|] eqn:Er;
    [|exfalso; unfold nonempty in Hr; simpl in Hr; lia].
  destruct (UserOrgs (sess w)) as [o|] eqn:Eo;
    [|exfalso; unfold nonempty in Ho; simpl in Ho; lia].
  destruct (Run_two_stage c v now w fn.GatherOrgs
              fn.GatherGithubOrgRepositories Hs
              (Run_gather_orgs_repos c w o r Eo Er) eq_refl eq_refl)
    as (post & _ & _ & _ & Hall).
  split; [exact Hall|].
  split; intros Hin.
  - assert (H : In fn.GatherUsers (gathers (trace (final (Run c v now))))).
    { unfold gathers. apply list_elem_of_In, list_elem_of_filter.
      split; [reflexivity | now apply list_elem_of_In]. }
    rewrite Hall in H. simpl in H. intuition discriminate.
  - assert (H : In fn.GetGithubRepositoriesFromOwner
                   (gathers (trace (final (Run c v now))))).
    { unfold gathers. apply list_elem_of_In, list_elem_of_filter.
      split; [reflexivity | now apply list_elem_of_In]. }
    rewrite Hall in H. simpl in H. intuition discriminate.
Qed.

Lemma orgs_path_ignores_logins_witness :
  nonempty (UserLogins (sess (stub_setup alice_acme_widget))) /\
  gathers (trace (final (Run stub_core alice_acme_widget 0))) =
    [fn.GatherOrgs; fn.GatherGithubOrgRepositories].
Proof.
  split; [vm_compute; lia|].
  apply (orgs_path_ignores_logins stub_core alice_acme_widget 0
           (stub_setup alice_acme_widget)).
  - vm_compute; reflexivity.
  - vm_compute; lia.
  - vm_compute; lia.
Defined.

(** After the setup nothing is resolved yet. *)
Lemma setup_unresolved (c : Core) (v : Viper) (now : Z) (s1 : Session) :
  CoreLaws c ->
  ValidateUserInput c v (NewSession c v scanType now) = Some s1 ->
  Repositories (sess (setup_world c v now s1)) = [].
Proof.
  intros laws Hv. unfold setup_world, after_call; cbn.
  rewrite (exec_resolved c laws) by reflexivity. cbn.
  rewrite (ValidateUserInput_unresolved c laws v _ _ Hv).
  apply (NewSession_unresolved c laws).
Qed.

(** C9: with logins and organizations both given and no repository, the
    run calls no gatherer and logs no error: straight after the setup it
    calls [AnalyzeRepositories], on the session the setup left, in which no
    repository is resolved. *)
Theorem logins_and_orgs_gather_nothing (c : Core) (v : Viper) (now : Z) (w : World) :
  CoreLaws c ->
  Run_setup c v now = Done tt w ->
  targets_normalised (sess w) ->
  nonempty (UserLogins (sess w)) ->
  nonempty (UserOrgs (sess w)) ->
  empty (UserRepos (sess w)) ->
  gathers (trace (final (Run c v now))) = [] /\
  logged Error (trace (final (Run c v now))) = [] /\
  (exists post,
     trace (final (Run c v now)) =
       trace w ++ Call fn.AnalyzeRepositories (sess w) :: post) /\
  Repositories (sess w) = [].
Proof.
  intros laws Hs (Hnl & Hno & Hnr) Hl Ho Hr.
  apply empty_is_nil in Hr; [|assumption].
  destruct (UserLogins (sess w)) as [l|] eqn:El;
    [|exfalso; unfold nonempty in Hl; simpl in Hl; lia].
  destruct (UserOrgs (sess w)) as [o|] eqn:Eo;
    [|exfalso; unfold nonempty in Ho; simpl in Ho; lia].
  rewrite (Run_after_gather c v now w w Hs
             (Run_gather_logins_orgs c w l o El Eo Hr)), Run_report_trace.
  destruct (Run_setup_done c v now w Hs) as (s1 & Hv & Hw).
  repeat split.
  - rewrite !gathers_app. rewrite Hw at 1. rewrite setup_gathers.
    unfold gathers. now rewrite report_calls, closing_calls.
  - rewrite !logged_app. rewrite Hw at 1.
    now rewrite setup_logged_Error, closing_logged_Error.
  - eexists. unfold report_events; cbv zeta. cbn [app]. reflexivity.
  - rewrite Hw. now apply setup_unresolved.
Qed.

Lemma logins_and_orgs_gather_nothing_witness :
  gathers (trace (final (Run stub_core alice_acme 0))) = [] /\
  logged Error (trace (final (Run stub_core alice_acme 0))) = [] /\
  Repositories (sess (stub_setup alice_acme)) = [].
Proof.
  destruct (logins_and_orgs_gather_nothing stub_core alice_acme 0
              (stub_setup alice_acme) stub_laws) as (Hg & He & _ & Hr).
  - vm_compute; reflexivity.
  - vm_compute; repeat split; discriminate.
  - vm_compute; lia.
  - vm_compute; lia.
  - vm_compute; reflexivity.
  - exact (conj Hg (conj He Hr)).
Defined.

(** ** The token *)

(** Only the keys of [bindings] are bound to flags. *)
Lemma pflags_unbound (loaded : gmap string string) (gh : gmap string Flag)
    (cmdline : gmap string string) (key : string) :
  ~ In key (map fst bindings) ->
  pflags (init loaded gh cmdline) !! key = None.
Proof.
  unfold init; cbn [pflags].
  assert (Hgen : forall (l : list (string * command)) (acc : gmap string Flag),
            ~ In key (map fst l) -> acc !! key = None ->
            fold_left
              (fun bound kc =>
                 match kc.2 with
                 | scanGithubEnterpriseCmd =>
                     BindPFlag (enterprise_flags cmdline) kc.1 bound
                 | scanGithubCmd => BindPFlag gh kc.1 bound
                 end) l acc !! key = None).
  { induction l as [|[k cmd] l IH]; intros acc Hnot Hacc; [exact Hacc|].
    cbn [fold_left]. apply IH.
    - intros Hin. apply Hnot. now right.
    - assert (Hk : k <> key) by (intros ->; apply Hnot; now left).
      cbn [fst snd]. destruct cmd; unfold BindPFlag;
        match goal with |- context [?m !! k] => destruct (m !! k) end;
        rewrite ?lookup_insert_ne by exact Hk; exact Hacc. }
  intros Hnot. apply Hgen; [exact Hnot | apply lookup_empty].
Qed.

(** The key [Run] reads the token from is bound to no flag: what it reads
    comes from the loaded settings alone, whatever the command line. *)
Lemma token_key_ignores_flags (loaded : gmap string string)
    (gh : gmap string Flag) (cmdline : gmap string string) :
  GetString (init loaded gh cmdline) "github-api-token" =
  default "" (loaded !! "github-api-token").
Proof.
  unfold GetString. rewrite pflags_unbound; [reflexivity|].
  cbn. intuition discriminate.
Qed.

(** C2, on the code: a token given with [--github-enterprise-api-token]
    is bound to the key of that name, but [Run] reads the key
    [github-api-token]; the token checked and stored in the session is the
    empty string, and the notice of a missing token is given. *)
Theorem enterprise_token_flag_is_not_read :
  let r := Run stub_core token_by_flag 0 in
  enterprise_token <> "" /\
  GetString token_by_flag "github-enterprise-api-token" = enterprise_token /\
  GetString token_by_flag "github-api-token" = "" /\
  GithubAccessToken (sess (final r)) = "" /\
  logged Info (trace (final r)) = [no_token_notice].
Proof. cbv zeta. repeat split; [discriminate | vm_compute; reflexivity ..]. Qed.

(** The session in the world the setup leaves. *)
Lemma setup_token (c : Core) (v : Viper) (now : Z) (s1 : Session) :
  CoreLaws c ->
  GithubAccessToken (sess (setup_world c v now s1)) =
  GetString v "github-api-token".
Proof.
  intros laws. unfold setup_world, after_call; cbn.
  now rewrite (exec_GithubAccessToken c laws).
Qed.

Lemma setup_logged_Info (c : Core) (v : Viper) (now : Z) (s1 : Session) :
  logged Info (trace (setup_world c v now s1)) =
  if bool_decide (GetString v "github-api-token" = "")
  then [no_token_notice] else [].
Proof.
  unfold setup_world, token_events; cbn.
  now destruct (bool_decide (GetString v "github-api-token" = "")).
Qed.

(** C7: when the configured token is the empty string and the session
    passes validation, the session holds no token (degraded, public-only
    mode), the notice is given once, and the run does not exit: after the
    setup it calls gatherers only, then [AnalyzeRepositories], [Finish] and
    [PrintSessionStats]. *)
Theorem missing_token_degrades (c : Core) (v : Viper) (now : Z) (s1 : Session) :
  CoreLaws c ->
  ValidateUserInput c v (NewSession c v scanType now) = Some s1 ->
  GetString v "github-api-token" = "" ->
  let r := Run c v now in
  degraded (sess (final r)) /\
  logged Info (trace (final r)) = [no_token_notice] /\
  ending_of r <> Exits /\
  exists gs,
    Forall (fun f => fn.is_gatherer f = true) gs /\
    calls (trace (final r)) =
      [fn.ValidateUserInput; fn.CheckGithubAPIToken; fn.InitGitClient] ++ gs ++
      [fn.AnalyzeRepositories; fn.Finish; fn.PrintSessionStats].
Proof.
  intros laws Hv Ht r.
  assert (Hs : Run_setup c v now = Done tt (setup_world c v now s1)).
  { rewrite Run_setup_eq; cbv zeta. now rewrite Hv. }
  set (w := setup_world c v now s1) in *.
  destruct (Run_gather_frame c w laws)
    as (w' & Hg & Hf & _ & _ & tr & Htr & _ & Hgs & Hinfo).
  assert (Hrun : r = Run_report c w')
    by exact (Run_after_gather c v now w w' Hs Hg).
  repeat split.
  - unfold degraded. rewrite Hrun, Run_report_sess.
    pose proof (after_report_config c w' laws) as H1.
    unfold config_of in H1, Hf.
    assert (H2 : GithubAccessToken (sess w) = "")
      by (unfold w; now rewrite setup_token, Ht).
    congruence.
  - rewrite Hrun, Run_report_trace, Htr, !logged_app, Hinfo.
    unfold w. rewrite setup_logged_Info, Ht.
    rewrite bool_decide_eq_true_2 by reflexivity.
    now destruct (Silent (sess (after_report c w'))).
  - rewrite Hrun, Run_report_ending.
    now destruct (Silent (sess (after_report c w'))).
  - exists (calls tr). split; [exact Hgs|].
    rewrite Hrun, Run_report_trace, Htr, !calls_app.
    unfold w. now rewrite setup_calls, report_calls, closing_calls, app_nil_r.
Qed.

Lemma missing_token_degrades_witness :
  degraded (sess (final (Run stub_core loud_scan 0))) /\
  logged Info (trace (final (Run stub_core loud_scan 0))) = [no_token_notice] /\
  ending_of (Run stub_core loud_scan 0) <> Exits.
Proof.
  destruct (missing_token_degrades stub_core loud_scan 0
              (NewSession stub_core loud_scan scanType 0) stub_laws)
    as (Hd & Hi & He & _).
  - reflexivity.
  - vm_compute; reflexivity.
  - exact (conj Hd (conj Hi He)).
Defined.

(** ** The timing of the session *)

(** After the setup the session has its start time and no finish time,
    and so has every session shown so far. *)
Lemma setup_stats (c : Core) (v : Viper) (now : Z) (s1 : Session) :
  CoreLaws c ->
  ValidateUserInput c v (NewSession c v scanType now) = Some s1 ->
  let st := {| StartedAt := now; FinishedAt := None |} in
  SessionStats (sess (setup_world c v now s1)) = st /\
  shows_stats st (trace (setup_world c v now s1)) /\
  now <= clock (setup_world c v now s1).
Proof.
  intros laws Hv st.
  pose proof (NewSession_stats c laws v scanType now) as H0.
  pose proof (ValidateUserInput_stats c laws v _ _ Hv) as H1.
  rewrite H0 in H1. fold st in H0, H1.
  unfold setup_world, after_call, token_events; cbn.
  rewrite (exec_stats c laws); cbn.
  repeat split; [exact H1 | | lia].
  unfold shows_stats.
  destruct (bool_decide (GetString v "github-api-token" = "")); cbn;
    repeat constructor; intros s [= <-]; cbn;
    rewrite ?(exec_stats c laws); assumption.
Qed.

(** C8: when the run reaches the end of the session, [Finish] is called
    once, after [AnalyzeRepositories] has returned and before
    [PrintSessionStats] is entered.  Every session seen up to that call has
    its start time and no finish time; every session seen from its return
    on has the same start time and one and the same finish time [t], and
    [t] is not earlier than the start. *)
Theorem finishedAt_set_once_after_start (c : Core) (v : Viper) (now : Z) (w : World) :
  CoreLaws c ->
  Run_setup c v now = Done tt w ->
  let r := Run c v now in
  exists pre s1 s2 s3 s4 post t,
    trace (final r) =
      pre ++
      [Call fn.AnalyzeRepositories s1; Return fn.AnalyzeRepositories s2;
       Call fn.Finish s2; Return fn.Finish s3;
       Call fn.PrintSessionStats s3; Return fn.PrintSessionStats s4] ++ post /\
    shows_stats {| StartedAt := now; FinishedAt := None |}
      (pre ++ [Call fn.AnalyzeRepositories s1;
               Return fn.AnalyzeRepositories s2; Call fn.Finish s2]) /\
    shows_stats {| StartedAt := now; FinishedAt := Some t |}
      ([Return fn.Finish s3; Call fn.PrintSessionStats s3;
        Return fn.PrintSessionStats s4] ++ post) /\
    SessionStats (sess (final r)) = {| StartedAt := now; FinishedAt := Some t |} /\
    now <= t /\
    ~ In fn.Finish (calls pre) /\
    calls post = [].
Proof.
  intros laws Hs r.
  destruct (Run_setup_done c v now w Hs) as (s1 & Hv & Hw).
  destruct (setup_stats c v now s1 laws Hv) as (Hst & Hshow & Hclk).
  rewrite <- Hw in Hst, Hshow, Hclk.
  destruct (Run_gather_frame c w laws)
    as (w' & Hg & _ & Hst' & Hclk' & tr & Htr & Hshow' & Hgs & _).
  rewrite Hst in Hst', Hshow'.
  assert (Hrun : r = Run_report c w')
    by exact (Run_after_gather c v now w w' Hs Hg).
  set (wa := after_call c fn.AnalyzeRepositories w').
  set (t := clock wa).
  exists (trace w'), (sess w'), (sess wa), (sess (after_finish wa)),
         (sess (after_report c w')),
         (closing_events (Silent (sess (after_report c w')))), t.
  assert (Ha : SessionStats (sess wa) = {| StartedAt := now; FinishedAt := None |}).
  { unfold wa, after_call; cbn. now rewrite (exec_stats c laws). }
  assert (Hfin : SessionStats (sess (after_finish wa)) =
                 {| StartedAt := now; FinishedAt := Some t |}).
  { unfold after_finish, Finish, set_FinishedAt; cbn [sess SessionStats].
    now rewrite Ha. }
  assert (Hrep : SessionStats (sess (after_report c w')) =
                 {| StartedAt := now; FinishedAt := Some t |}).
  { unfold after_report. fold wa. unfold after_call at 1; cbn [sess].
    now rewrite (exec_stats c laws). }
  repeat split.
  - rewrite Hrun, Run_report_trace. reflexivity.
  - unfold shows_stats in *. apply Forall_app. split.
    + rewrite Htr. now apply Forall_app.
    + repeat constructor; intros s [= <-]; assumption.
  - unfold shows_stats. apply Forall_app. split.
    + repeat constructor; intros s [= <-]; assumption.
    + unfold closing_events.
      destruct (Silent (sess (after_report c w')));
        repeat constructor; intros s [=].
  - rewrite Hrun, Run_report_sess. exact Hrep.
  - unfold t, wa, after_call; cbn. lia.
  - rewrite Htr, calls_app, Hw, setup_calls. intros Hin.
    apply in_app_or in Hin. destruct Hin as [Hin|Hin].
    + simpl in Hin. intuition discriminate.
    + apply list_elem_of_In in Hin.
      rewrite Forall_forall in Hgs. specialize (Hgs _ Hin). discriminate Hgs.
  - apply closing_calls.
Qed.

Lemma finishedAt_set_once_after_start_witness :
  exists t,
    SessionStats (sess (final (Run stub_core acme_widget 0))) =
      {| StartedAt := 0; FinishedAt := Some t |} /\
    0 <= t.
Proof.
  destruct (finishedAt_set_once_after_start stub_core acme_widget 0
              (stub_setup acme_widget) stub_laws)
    as (pre & s1 & s2 & s3 & s4 & post & t & _ & _ & _ & Hst & Ht & _).
  - vm_compute; reflexivity.
  - exists t. split; assumption.
Defined.

(** ** The runs of the examples, evaluated *)

(** A login alone: [GatherUsers] is the only gatherer, and the run blocks
    on the dashboard. *)
Example run_loud_scan :
  let r := Run stub_core loud_scan 0 in
  calls (trace (final r)) =
    [fn.ValidateUserInput; fn.CheckGithubAPIToken; fn.InitGitClient;
     fn.GatherUsers;
     fn.AnalyzeRepositories; fn.Finish; fn.PrintSessionStats] /\
  ending_of r = Blocks /\
  SessionStats (sess (final r)) = {| StartedAt := 0; FinishedAt := Some 5 |}.
Proof. vm_compute. repeat split. Qed.

(** An organization and a repository. *)
Example run_acme_widget :
  let r := Run stub_core acme_widget 0 in
  gathers (trace (final r)) = [fn.GatherOrgs; fn.GatherGithubOrgRepositories] /\
  Repositories (sess (final r)) = [public_repo "acme" "widget"].
Proof. vm_compute. repeat split. Qed.

(** A repository alone: the error, then the analysis of nothing. *)
Example run_widget_only :
  let r := Run stub_core widget_only 0 in
  calls (trace (final r)) =
    [fn.ValidateUserInput; fn.CheckGithubAPIToken; fn.InitGitClient;
     fn.AnalyzeRepositories; fn.Finish; fn.PrintSessionStats] /\
  logged Error (trace (final r)) = [no_owner_message] /\
  Repositories (sess (final r)) = [] /\
  ending_of r = Blocks.
Proof. vm_compute. repeat split. Qed.

(** The bindings of [init] seen through [GetString]. *)
Example keys_of_token_by_flag :
  GetString token_by_flag "github-enterprise-orgs" = "acme" /\
  GetString token_by_flag "silent" = "false" /\
  GetString token_by_flag "bind-port" = "9393" /\
  GetString token_by_flag "github-api-token" = "".
Proof. vm_compute. repeat split. Qed.

(** ** The bindings of [init] *)

Lemma bindings_keys_NoDup : NoDup (map fst bindings).
Proof. apply (bool_decide_unpack _). vm_compute. exact I. Qed.

Lemma declared_flags_NoDup : NoDup (map fst enterprise_flag_defaults).
Proof. apply (bool_decide_unpack _). vm_compute. exact I. Qed.

(** [init] binds every key of [bindings] through [flagset]. *)
Lemma pflags_init (loaded : gmap string string) (gh : gmap string Flag)
    (cmdline : gmap string string) :
  pflags (init loaded gh cmdline) =
  fold_left
    (fun bound (kc : string * command) =>
       BindPFlag (flagset gh cmdline kc.2) kc.1 bound)
    bindings ∅.
Proof. reflexivity. Qed.

Lemma BindPFlag_other (flags bound : gmap string Flag) (k key : string) :
  k <> key -> BindPFlag flags k bound !! key = bound !! key.
Proof.
  intros Hk. unfold BindPFlag.
  destruct (flags !! k); [now rewrite lookup_insert_ne | reflexivity].
Qed.

Lemma BindPFlag_same (flags bound : gmap string Flag) (key : string) :
  bound !! key = None -> BindPFlag flags key bound !! key = flags !! key.
Proof.
  intros Hb. unfold BindPFlag.
  destruct (flags !! key) eqn:E; [now rewrite lookup_insert_eq | exact Hb].
Qed.

Section Binding.
Context (gh : gmap string Flag) (cmdline : gmap string string).

Let bind_all (l : list (string * command)) (acc : gmap string Flag) :=
  fold_left
    (fun bound (kc : string * command) =>
       BindPFlag (flagset gh cmdline kc.2) kc.1 bound)
    l acc.

Lemma bind_all_other (l : list (string * command)) (acc : gmap string Flag)
    (key : string) :
  ~ In key (map fst l) -> bind_all l acc !! key = acc !! key.
Proof.
  revert acc. induction l as [|[k cmd] l IH]; intros acc Hnot; [reflexivity|].
  unfold bind_all in *. cbn [fold_left fst snd]. rewrite IH.
  - apply BindPFlag_other. intros ->. apply Hnot. now left.
  - intros Hin. apply Hnot. now right.
Qed.

Lemma bind_all_bound (l : list (string * command)) (acc : gmap string Flag)
    (key : string) (cmd : command) :
  NoDup (map fst l) ->
  In (key, cmd) l ->
  acc !! key = None ->
  bind_all l acc !! key = flagset gh cmdline cmd !! key.
Proof.
  revert acc. induction l as [|[k c] l IH]; intros acc Hnd Hin Hacc; [destruct Hin|].
  cbn [map fst] in Hnd. apply NoDup_cons in Hnd as [Hk Hnd].
  unfold bind_all in *. cbn [fold_left fst snd].
  destruct Hin as [[= -> ->]|Hin].
  - fold (bind_all l (BindPFlag (flagset gh cmdline cmd) key acc)).
    rewrite bind_all_other.
    + now apply BindPFlag_same.
    + intros H. apply Hk. now apply list_elem_of_In.
  - apply IH; [assumption..|].
    rewrite BindPFlag_other; [exact Hacc|].
    intros ->. apply Hk. apply list_elem_of_In.
    change key with (fst (key, cmd)). now apply in_map.
Qed.
End Binding.

(** A key of [bindings] reads the flag of that name in the flag set of its
    binding, or nothing when there is no such flag. *)
Lemma pflags_bound (loaded : gmap string string) (gh : gmap string Flag)
    (cmdline : gmap string string) (key : string) (cmd : command) :
  In (key, cmd) bindings ->
  pflags (init loaded gh cmdline) !! key = flagset gh cmdline cmd !! key.
Proof.
  intros Hin. rewrite pflags_init.
  apply (bind_all_bound gh cmdline bindings ∅ key cmd);
    [apply bindings_keys_NoDup | exact Hin | apply lookup_empty].
Qed.

Lemma keys_bound_to_In (key : string) (cmd : command) :
  In key (keys_bound_to cmd) <-> In (key, cmd) bindings.
Proof.
  unfold keys_bound_to. rewrite in_map_iff. split.
  - intros ([k c] & <- & Hin). apply list_elem_of_In, list_elem_of_filter in Hin.
    destruct Hin as [Hc Hin]. cbn in Hc. subst c. now apply list_elem_of_In.
  - intros Hin. exists (key, cmd). split; [reflexivity|].
    apply list_elem_of_In, list_elem_of_filter. split; [reflexivity|].
    now apply list_elem_of_In.
Qed.

(** A declared flag, once the command line is parsed. *)
Lemma enterprise_flags_lookup (cmdline : gmap string string) (key d : string) :
  In (key, d) enterprise_flag_defaults ->
  enterprise_flags cmdline !! key =
  Some {| flag_default := d; flag_given := cmdline !! key |}.
Proof.
  intros Hin. unfold enterprise_flags.
  apply elem_of_list_to_map_1.
  - change (NoDup (map fst enterprise_flag_defaults)).
    apply declared_flags_NoDup.
  - apply list_elem_of_In, in_map_iff. now exists (key, d).
Qed.




(** X2: a flag that was not given falls back on the loaded settings, and
    on its declared default when the settings have no such key. *)
Theorem missing_flag_falls_back (loaded : gmap string string)
    (gh : gmap string Flag) (cmdline : gmap string string) (key d : string) :
  In key (keys_bound_to scanGithubEnterpriseCmd) ->
  In (key, d) enterprise_flag_defaults ->
  cmdline !! key = None ->
  GetString (init loaded gh cmdline) key = default d (loaded !! key).
Proof.
  intros Hown Hd Hx.
  apply keys_bound_to_In in Hown.
  unfold GetString.
  rewrite (pflags_bound loaded gh cmdline key _ Hown). cbn [flagset].
  rewrite (enterprise_flags_lookup cmdline key d Hd). cbn.
  rewrite Hx. now destruct (loaded !! key).
Qed.

Lemma missing_flag_falls_back_witness :
  GetString (init ∅ github_flags ∅) "match-level" = "3" /\
  GetString (init {["match-level" := "1"]} github_flags ∅) "match-level" = "1".
Proof.
  split.
  - rewrite (missing_flag_falls_back ∅ github_flags ∅ "match-level" "3").
    + vm_compute. reflexivity.
    + vm_compute. tauto.
    + vm_compute. tauto.
    + reflexivity.
  - rewrite (missing_flag_falls_back {["match-level" := "1"]} github_flags ∅
               "match-level" "3").
    + vm_compute. reflexivity.
    + vm_compute. tauto.
    + vm_compute. tauto.
    + reflexivity.
Defined.



(** X4: the five keys [init] binds to flags of [scanGithubCmd]
    ([bind-address], [bind-port], [in-mem-clone], [expand-orgs],
    [num-threads]) read the flag set of that command: the value is the one
    a viper holding only those flags gives, whatever is given to
    [scanGithubEnterprise]. *)
Theorem sibling_keys_read_sibling_flags (loaded : gmap string string)
    (gh : gmap string Flag) (cmdline : gmap string string) (key : string) :
  In key (keys_bound_to scanGithubCmd) ->
  GetString (init loaded gh cmdline) key =
  GetString (sibling_viper loaded gh) key.
Proof.
  intros Hin. apply keys_bound_to_In in Hin.
  unfold GetString, sibling_viper; cbn [pflags settings].
  now rewrite (pflags_bound loaded gh cmdline key _ Hin).
Qed.

Lemma sibling_keys_read_sibling_flags_witness :
  GetString (init ∅ github_flags {["bind-port" := "8080"]}) "bind-port" =
  GetString (sibling_viper ∅ github_flags) "bind-port".
Proof.
  apply sibling_keys_read_sibling_flags. vm_compute. tauto.
Defined.

(** The error [init] is left with is the one of its last [BindPFlag]. *)
Lemma init_error_last (gh : gmap string Flag) (cmdline : gmap string string) :
  init_error gh cmdline = BindPFlag_error gh "num-threads".
Proof. reflexivity. Qed.

(** X5: [init] reports a binding error only for its last binding: when the
    flag [num-threads] of [scanGithubCmd] exists, a key whose flag is
    missing there stays unbound (it reads the loaded settings alone) and no
    error is left for line 136 to print. *)
Theorem earlier_binding_error_is_lost (loaded : gmap string string)
    (gh : gmap string Flag) (cmdline : gmap string string) (key : string) :
  In key (keys_bound_to scanGithubCmd) ->
  gh !! key = None ->
  is_Some (gh !! "num-threads") ->
  BindPFlag_error (flagset gh cmdline scanGithubCmd) key = Some (FlagIsNil key) /\
  init_error gh cmdline = None /\
  GetString (init loaded gh cmdline) key = default "" (loaded !! key).
Proof.
  intros Hin Hnil [f Hf]. repeat split.
  - unfold BindPFlag_error; cbn [flagset]. now rewrite Hnil.
  - rewrite init_error_last. unfold BindPFlag_error. now rewrite Hf.
  - apply keys_bound_to_In in Hin. unfold GetString.
    rewrite (pflags_bound loaded gh cmdline key _ Hin). cbn [flagset].
    now rewrite Hnil.
Qed.

Lemma earlier_binding_error_is_lost_witness :
  init_error github_flags_without_port ∅ = None /\
  GetString (init {["bind-port" := "80"]} github_flags_without_port ∅)
            "bind-port" = "80".
Proof.
  destruct (earlier_binding_error_is_lost {["bind-port" := "80"]}
              github_flags_without_port ∅ "bind-port") as (_ & He & Hg).
  - vm_compute. tauto.
  - vm_compute. reflexivity.
  - vm_compute. eexists. reflexivity.
  - split; [exact He|]. rewrite Hg. vm_compute. reflexivity.
Defined.

(** ** The calls of a whole run *)

(** What the gathering adds to the trace. *)
Lemma Run_gather_summary (c : Core) (w : World) :
  CoreLaws c ->
  exists w' tr,
    Run_gather c w = Done tt w' /\
    trace w' = trace w ++ tr /\
    calls tr = gather_plan (not_nil (UserLogins (sess w)))
                           (not_nil (UserOrgs (sess w)))
                           (not_nil (UserRepos (sess w))) /\
    logged Error tr =
      (if not_nil (UserRepos (sess w)) &&
          (is_nil (UserOrgs (sess w)) && is_nil (UserLogins (sess w)))
       then [no_owner_message] else []) /\
    logged Important tr = [] /\
    Silent (sess w') = Silent (sess w).
Proof.
  intros laws.
  destruct (UserLogins (sess w)) as [l|] eqn:El;
    destruct (UserOrgs (sess w)) as [o|] eqn:Eo;
    destruct (UserRepos (sess w)) as [r|] eqn:Er;
    unfold not_nil; cbn [is_nil negb andb gather_plan app].
  - do 2 eexists. split; [exact (Run_gather_orgs_repos c w o r Eo Er)|].
    unfold after_call; cbn. rewrite <- app_assoc.
    rewrite !(exec_Silent c laws). repeat split.
  - do 2 eexists. split; [exact (Run_gather_logins_orgs c w l o El Eo Er)|].
    rewrite app_nil_r. repeat split.
  - do 2 eexists. split; [exact (Run_gather_logins_repos c w l r El Eo Er)|].
    unfold after_call; cbn. rewrite <- app_assoc.
    rewrite !(exec_Silent c laws). repeat split.
  - do 2 eexists. split; [exact (Run_gather_logins_only c w l laws El Eo Er)|].
    unfold after_call; cbn. rewrite !(exec_Silent c laws). repeat split.
  - do 2 eexists. split; [exact (Run_gather_orgs_repos c w o r Eo Er)|].
    unfold after_call; cbn. rewrite <- app_assoc.
    rewrite !(exec_Silent c laws). repeat split.
  - do 2 eexists. split; [exact (Run_gather_orgs_only c w o laws El Eo Er)|].
    unfold after_call; cbn. rewrite !(exec_Silent c laws). repeat split.
  - do 2 eexists. split; [exact (Run_gather_repos_only c w r El Eo Er)|].
    cbn. repeat split.
  - do 2 eexists. split; [exact (Run_gather_nothing c w El Eo Er)|].
    rewrite app_nil_r. repeat split.
Qed.

Lemma setup_logged_Important (c : Core) (v : Viper) (now : Z) (s1 : Session) :
  logged Important (trace (setup_world c v now s1)) = banner.
Proof.
  unfold setup_world, token_events; cbn.
  now destruct (bool_decide (GetString v "github-api-token" = "")).
Qed.

(** The calls, the errors and the important lines of a whole run. *)
Lemma Run_summary (c : Core) (v : Viper) (now : Z) (w : World) :
  CoreLaws c ->
  Run_setup c v now = Done tt w ->
  calls (trace (final (Run c v now))) =
    [fn.ValidateUserInput; fn.CheckGithubAPIToken; fn.InitGitClient] ++
    gather_plan (not_nil (UserLogins (sess w))) (not_nil (UserOrgs (sess w)))
                (not_nil (UserRepos (sess w))) ++
    [fn.AnalyzeRepositories; fn.Finish; fn.PrintSessionStats] /\
  logged Error (trace (final (Run c v now))) =
    (if not_nil (UserRepos (sess w)) &&
        (is_nil (UserOrgs (sess w)) && is_nil (UserLogins (sess w)))
     then [no_owner_message] else []) /\
  logged Important (trace (final (Run c v now))) =
    banner ++ (if Silent (sess w) then [] else [ctrl_c_notice]).
Proof.
  intros laws Hs.
  destruct (Run_gather_summary c w laws)
    as (w' & tr & Hg & Htr & Hcalls & Herr & Himp & Hsil).
  rewrite (Run_after_gather c v now w w' Hs Hg), Run_report_trace, Htr.
  assert (Hsil' : Silent (sess (after_report c w')) = Silent (sess w)).
  { rewrite <- Hsil. pose proof (after_report_config c w' laws) as H.
    unfold config_of in H. congruence. }
  destruct (Run_setup_done c v now w Hs) as (s1 & _ & Hw).
  rewrite Hsil'. repeat split.
  - rewrite !calls_app, Hcalls, report_calls, closing_calls, app_nil_r.
    rewrite Hw at 1. now rewrite setup_calls.
  - rewrite !logged_app, Herr, closing_logged_Error.
    rewrite Hw at 1. rewrite setup_logged_Error. cbn [app].
    now rewrite !app_nil_r.
  - rewrite !logged_app, Himp. rewrite Hw at 1.
    rewrite setup_logged_Important. cbn [app].
    unfold closing_events. now destruct (Silent (sess w)).
Qed.

(** Decides a statement on the calls of a run once the three target sets
    are known to be nil or not. *)
Ltac by_targets w :=
  destruct (UserLogins (sess w)) as [?l|];
  destruct (UserOrgs (sess w)) as [?o|];
  destruct (UserRepos (sess w)) as [?r|];
  unfold not_nil; cbn;
  intuition (first [discriminate | congruence]).

(** X6: with logins given and neither organizations nor repositories,
    [GatherUsers] is the only gatherer of the run: no repository gatherer
    is called, no error is logged, and [AnalyzeRepositories] is entered
    with the session as [GatherUsers] left it. *)
Theorem logins_alone_gather_users (c : Core) (v : Viper) (now : Z) (w : World) :
  CoreLaws c ->
  Run_setup c v now = Done tt w ->
  UserLogins (sess w) <> None ->
  UserOrgs (sess w) = None ->
  UserRepos (sess w) = None ->
  gathers (trace (final (Run c v now))) = [fn.GatherUsers] /\
  logged Error (trace (final (Run c v now))) = [] /\
  exists post,
    trace (final (Run c v now)) =
      trace w ++
      [Call fn.GatherUsers (sess w);
       Return fn.GatherUsers (exec c fn.GatherUsers (sess w));
       Call fn.AnalyzeRepositories (exec c fn.GatherUsers (sess w))] ++ post.
Proof.
  intros laws Hs Hl Ho Hr.
  destruct (Run_summary c v now w laws Hs) as (Hcalls & Herr & _).
  destruct (UserLogins (sess w)) as [l|] eqn:El; [clear Hl|congruence].
  split; [|split].
  - unfold gathers. rewrite Hcalls, Ho, Hr. reflexivity.
  - rewrite Herr, Ho, Hr. reflexivity.
  - rewrite (Run_after_gather c v now w _ Hs
               (Run_gather_logins_only c w l laws El Ho Hr)), Run_report_trace.
    eexists. unfold after_call at 1; cbn [trace].
    rewrite <- app_assoc. unfold report_events; cbv zeta.
    cbn [app sess after_call]. reflexivity.
Qed.

Lemma logins_alone_gather_users_witness :
  gathers (trace (final (Run stub_core loud_scan 0))) = [fn.GatherUsers] /\
  logged Error (trace (final (Run stub_core loud_scan 0))) = [].
Proof.
  destruct (logins_alone_gather_users stub_core loud_scan 0
              (stub_setup loud_scan) stub_laws) as (Hg & He & _).
  - vm_compute; reflexivity.
  - vm_compute; discriminate.
  - vm_compute; reflexivity.
  - vm_compute; reflexivity.
  - split; assumption.
Defined.

(** X7: with organizations given and neither logins nor repositories,
    [GatherOrgs] is the only gatherer of the run: in particular
    [GatherGithubOrgRepositories] is not called, and [AnalyzeRepositories]
    is entered with the session as [GatherOrgs] left it. *)
Theorem orgs_alone_gather_orgs (c : Core) (v : Viper) (now : Z) (w : World) :
  CoreLaws c ->
  Run_setup c v now = Done tt w ->
  UserLogins (sess w) = None ->
  UserOrgs (sess w) <> None ->
  UserRepos (sess w) = None ->
  gathers (trace (final (Run c v now))) = [fn.GatherOrgs] /\
  logged Error (trace (final (Run c v now))) = [] /\
  exists post,
    trace (final (Run c v now)) =
      trace w ++
      [Call fn.GatherOrgs (sess w);
       Return fn.GatherOrgs (exec c fn.GatherOrgs (sess w));
       Call fn.AnalyzeRepositories (exec c fn.GatherOrgs (sess w))] ++ post.
Proof.
  intros laws Hs Hl Ho Hr.
  destruct (Run_summary c v now w laws Hs) as (Hcalls & Herr & _).
  destruct (UserOrgs (sess w)) as [o|] eqn:Eo; [clear Ho|congruence].
  split; [|split].
  - unfold gathers. rewrite Hcalls, Hl, Hr. reflexivity.
  - rewrite Herr, Hl, Hr. reflexivity.
  - rewrite (Run_after_gather c v now w _ Hs
               (Run_gather_orgs_only c w o laws Hl Eo Hr)), Run_report_trace.
    eexists. unfold after_call at 1; cbn [trace].
    rewrite <- app_assoc. unfold report_events; cbv zeta.
    cbn [app sess after_call]. reflexivity.
Qed.

Lemma orgs_alone_gather_orgs_witness :
  gathers (trace (final (Run stub_core acme_only 0))) = [fn.GatherOrgs].
Proof.
  apply (orgs_alone_gather_orgs stub_core acme_only 0
           (stub_setup acme_only) stub_laws).
  - vm_compute; reflexivity.
  - vm_compute; reflexivity.
  - vm_compute; discriminate.
  - vm_compute; reflexivity.
Defined.

(** X8: with no target at all, [Run] calls no gatherer and logs no error,
    and still goes on to [AnalyzeRepositories] with the session the setup
    left. *)
Theorem no_target_still_analyzes (c : Core) (v : Viper) (now : Z) (w : World) :
  Run_setup c v now = Done tt w ->
  UserLogins (sess w) = None ->
  UserOrgs (sess w) = None ->
  UserRepos (sess w) = None ->
  gathers (trace (final (Run c v now))) = [] /\
  logged Error (trace (final (Run c v now))) = [] /\
  exists post,
    trace (final (Run c v now)) =
      trace w ++ Call fn.AnalyzeRepositories (sess w) :: post.
Proof.
  intros Hs Hl Ho Hr.
  rewrite (Run_after_gather c v now w w Hs (Run_gather_nothing c w Hl Ho Hr)),
    Run_report_trace.
  destruct (Run_setup_done c v now w Hs) as (s1 & _ & Hw).
  split; [|split].
  - rewrite !gathers_app. rewrite Hw at 1. rewrite setup_gathers.
    unfold gathers. now rewrite report_calls, closing_calls.
  - rewrite !logged_app. rewrite Hw at 1.
    now rewrite setup_logged_Error, closing_logged_Error.
  - eexists. unfold report_events; cbv zeta. cbn [app]. reflexivity.
Qed.

Lemma no_target_still_analyzes_witness :
  gathers (trace (final (Run stub_core no_target 0))) = [] /\
  logged Error (trace (final (Run stub_core no_target 0))) = [].
Proof.
  destruct (no_target_still_analyzes stub_core no_target 0
              (stub_setup no_target)) as (Hg & He & _).
  - vm_compute; reflexivity.
  - vm_compute; reflexivity.
  - vm_compute; reflexivity.
  - vm_compute; reflexivity.
  - split; assumption.
Defined.

(** X9: the error that an org or user is needed is logged exactly when
    repositories are given and neither organizations nor logins are: once
    in that case, and never otherwise. *)
Theorem no_owner_error_iff (c : Core) (v : Viper) (now : Z) (w : World) :
  CoreLaws c ->
  Run_setup c v now = Done tt w ->
  (UserRepos (sess w) <> None /\ UserOrgs (sess w) = None /\
   UserLogins (sess w) = None ->
   logged Error (trace (final (Run c v now))) = [no_owner_message]) /\
  (~ (UserRepos (sess w) <> None /\ UserOrgs (sess w) = None /\
      UserLogins (sess w) = None) ->
   logged Error (trace (final (Run c v now))) = []).
Proof.
  intros laws Hs.
  destruct (Run_summary c v now w laws Hs) as (_ & Herr & _).
  rewrite Herr. clear Herr Hs. by_targets w.
Qed.

Lemma no_owner_error_iff_witness :
  logged Error (trace (final (Run stub_core widget_only 0))) = [no_owner_message] /\
  logged Error (trace (final (Run stub_core alice_widget 0))) = [].
Proof.
  split.
  - apply (no_owner_error_iff stub_core widget_only 0
             (stub_setup widget_only) stub_laws).
    + vm_compute; reflexivity.
    + vm_compute; repeat split; discriminate.
  - apply (no_owner_error_iff stub_core alice_widget 0
             (stub_setup alice_widget) stub_laws).
    + vm_compute; reflexivity.
    + vm_compute. intros (_ & _ & H). discriminate H.
Defined.

(** X10: which owner gatherer runs.  [GatherUsers] is called exactly when
    logins are given and organizations are not; [GatherOrgs] exactly when
    organizations are given and either repositories are given or logins
    are not. *)
Theorem owner_gatherer_iff (c : Core) (v : Viper) (now : Z) (w : World) :
  CoreLaws c ->
  Run_setup c v now = Done tt w ->
  (In fn.GatherUsers (calls (trace (final (Run c v now)))) <->
   UserLogins (sess w) <> None /\ UserOrgs (sess w) = None) /\
  (In fn.GatherOrgs (calls (trace (final (Run c v now)))) <->
   UserOrgs (sess w) <> None /\
   (UserRepos (sess w) <> None \/ UserLogins (sess w) = None)).
Proof.
  intros laws Hs.
  destruct (Run_summary c v now w laws Hs) as (Hcalls & _).
  rewrite Hcalls. clear Hcalls Hs. by_targets w.
Qed.

Lemma owner_gatherer_iff_witness :
  In fn.GatherOrgs (calls (trace (final (Run stub_core alice_acme_widget 0)))) /\
  ~ In fn.GatherUsers (calls (trace (final (Run stub_core alice_acme_widget 0)))).
Proof.
  destruct (owner_gatherer_iff stub_core alice_acme_widget 0
              (stub_setup alice_acme_widget) stub_laws) as (Hu & Ho).
  - vm_compute; reflexivity.
  - split.
    + apply (proj2 Ho). vm_compute. split; [discriminate | left; discriminate].
    + intros H. apply (proj1 Hu) in H. vm_compute in H. destruct H as [_ H].
      discriminate H.
Defined.

(** X11: a repository gatherer runs only when repositories are given:
    [GatherGithubOrgRepositories] is called exactly when repositories and
    organizations are given, and [GetGithubRepositoriesFromOwner] exactly
    when repositories and logins are given and organizations are not. *)
Theorem repository_gatherer_iff (c : Core) (v : Viper) (now : Z) (w : World) :
  CoreLaws c ->
  Run_setup c v now = Done tt w ->
  (In fn.GatherGithubOrgRepositories (calls (trace (final (Run c v now)))) <->
   UserRepos (sess w) <> None /\ UserOrgs (sess w) <> None) /\
  (In fn.GetGithubRepositoriesFromOwner (calls (trace (final (Run c v now)))) <->
   UserRepos (sess w) <> None /\ UserOrgs (sess w) = None /\
   UserLogins (sess w) <> None).
Proof.
  intros laws Hs.
  destruct (Run_summary c v now w laws Hs) as (Hcalls & _).
  rewrite Hcalls. clear Hcalls Hs. by_targets w.
Qed.

Lemma repository_gatherer_iff_witness :
  ~ In fn.GatherGithubOrgRepositories
       (calls (trace (final (Run stub_core acme_only 0)))) /\
  In fn.GetGithubRepositoriesFromOwner
     (calls (trace (final (Run stub_core alice_widget 0)))).
Proof.
  split.
  - destruct (repository_gatherer_iff stub_core acme_only 0
                (stub_setup acme_only) stub_laws) as (Hg & _).
    + vm_compute; reflexivity.
    + intros H. apply (proj1 Hg) in H. vm_compute in H. destruct H as [H _].
      now apply H.
  - destruct (repository_gatherer_iff stub_core alice_widget 0
                (stub_setup alice_widget) stub_laws) as (_ & Hg).
    + vm_compute; reflexivity.
    + apply (proj2 Hg). vm_compute. repeat split; discriminate.
Defined.

(** X12: the shape of every run that passes validation: the calls are
    [ValidateUserInput], [CheckGithubAPIToken] and [InitGitClient], then
    gatherers only, at most two and none of them twice, then
    [AnalyzeRepositories], [Finish] and [PrintSessionStats], each once. *)
Theorem run_call_order (c : Core) (v : Viper) (now : Z) (w : World) :
  CoreLaws c ->
  Run_setup c v now = Done tt w ->
  exists gs,
    calls (trace (final (Run c v now))) =
      [fn.ValidateUserInput; fn.CheckGithubAPIToken; fn.InitGitClient] ++ gs ++
      [fn.AnalyzeRepositories; fn.Finish; fn.PrintSessionStats] /\
    Forall (fun f => fn.is_gatherer f = true) gs /\
    (length gs <= 2)%nat /\
    NoDup gs.
Proof.
  intros laws Hs.
  destruct (Run_summary c v now w laws Hs) as (Hcalls & _).
  eexists. split; [exact Hcalls|]. clear Hcalls Hs.
  destruct (UserLogins (sess w)) as [l|];
    destruct (UserOrgs (sess w)) as [o|];
    destruct (UserRepos (sess w)) as [r|];
    unfold not_nil; cbn;
    (split; [repeat constructor |
             split; [lia | apply (bool_decide_unpack _); vm_compute; exact I]]).
Qed.

Lemma run_call_order_witness :
  exists gs,
    calls (trace (final (Run stub_core acme_widget 0))) =
      [fn.ValidateUserInput; fn.CheckGithubAPIToken; fn.InitGitClient] ++ gs ++
      [fn.AnalyzeRepositories; fn.Finish; fn.PrintSessionStats] /\
    (length gs <= 2)%nat.
Proof.
  destruct (run_call_order stub_core acme_widget 0
              (stub_setup acme_widget) stub_laws) as (gs & Hc & _ & Hl & _).
  - vm_compute; reflexivity.
  - exists gs. split; assumption.
Defined.

(** X13: the lines [Run] hands to the logger as important are the three
    banner lines of lines 38-40 in every run, silent or not, followed by
    the Ctrl+C notice only when the session is not silent. *)
Theorem important_lines (c : Core) (v : Viper) (now : Z) (w : World) :
  CoreLaws c ->
  Run_setup c v now = Done tt w ->
  logged Important (trace (final (Run c v now))) =
    banner ++ (if Silent (sess w) then [] else [ctrl_c_notice]).
Proof.
  intros laws Hs. now destruct (Run_summary c v now w laws Hs) as (_ & _ & H).
Qed.

Lemma important_lines_witness :
  logged Important (trace (final (Run stub_core silent_scan 0))) = banner.
Proof.
  rewrite (important_lines stub_core silent_scan 0 (stub_setup silent_scan)
             stub_laws).
  - vm_compute; reflexivity.
  - vm_compute; reflexivity.
Defined.
